(** * MANTUL: the ACI snapshot comparer and health checker

    A shallow embedding of
      - [src/aci/compare/comparer.py]  (summarize_interfaces,
        summarize_interface_errors, extract_interface_from_dn,
        compare_snapshots), and
      - [src/aci/healthcheck/checklist_aci.py]  (DataProcessor.process_apic_data,
        DataProcessor.process_faults, DataProcessor._process_interface_errors,
        ReportGenerator.generate_summary),
    followed by the properties of the design document that concern them.

    Python values are the values [json.load] produces; exceptions are an
    explicit result type; the two things the interpreter decides and the
    source does not (the enumeration order of a [set], the [repr] of a
    container) are fields of a [runtime] record every function that needs
    them receives. *)

From Stdlib Require Import List String Ascii ZArith QArith Bool Lia.
From Stdlib Require Import DecimalString Permutation Sorted.
Import ListNotations.

Set Warnings "-register-all".

Local Open Scope Z_scope.
Local Open Scope list_scope.

Notation "a +++ b" := (String.append a b) (at level 60, right associativity).

(** ** Exceptions and results *)

Module Py.

Inductive exn : Type :=
| KeyError
| TypeError
| AttributeError
| ValueError.

Inductive result (A : Type) : Type :=
| Ok (a : A)
| Raise (e : exn).

Arguments Ok {A} a.
Arguments Raise {A} e.

Definition bind {A B : Type} (c : result A) (k : A -> result B) : result B :=
  match c with
  | Ok a => k a
  | Raise e => Raise e
  end.

Definition raised {A : Type} (c : result A) : bool :=
  match c with
  | Ok _ => false
  | Raise _ => true
  end.

(** [try: c except Exception: h] *)
Definition try_except {A : Type} (c : result A) (h : A) : A :=
  match c with
  | Ok a => a
  | Raise _ => h
  end.

(** A [for] loop whose body may raise or update the accumulator. *)
Fixpoint for_each {A S : Type} (body : S -> A -> result S) (xs : list A) (s : S)
  : result S :=
  match xs with
  | [] => Ok s
  | x :: xs' => bind (body s x) (for_each body xs')
  end.

(** ** Strings

    A Python [str] is represented by its UTF-8 bytes.  Concatenation,
    equality, substring search and the code-point order of [sorted] are the
    same on both sides of that encoding. *)

Definition is_digit (c : ascii) : bool :=
  ((48 <=? nat_of_ascii c) && (nat_of_ascii c <=? 57))%nat.

Definition digit_value (c : ascii) : Z := Z.of_nat (nat_of_ascii c - 48).

Definition is_upper (c : ascii) : bool :=
  ((65 <=? nat_of_ascii c) && (nat_of_ascii c <=? 90))%nat.

Definition lower_char (c : ascii) : ascii :=
  if is_upper c then ascii_of_nat (nat_of_ascii c + 32) else c.

(** [s.lower()].  Only ASCII letters are folded.  The tokens the sources
    compare against ("critical", "major", "fully-fit", "fully fit",
    "degraded", "100", "leaf", "spine") hold no letter that a non-ASCII
    character lowers to, so every such comparison has the result Python
    computes. *)
Fixpoint lower (s : string) : string :=
  match s with
  | EmptyString => EmptyString
  | String c s' => String (lower_char c) (lower s')
  end.

(** [w in s] on two strings. *)
Fixpoint is_substring (w s : string) : bool :=
  prefix w s ||
  match s with
  | EmptyString => false
  | String _ s' => is_substring w s'
  end.

(** A byte that continues a UTF-8 sequence (10xxxxxx). *)
Definition is_continuation (c : ascii) : bool :=
  ((128 <=? nat_of_ascii c) && (nat_of_ascii c <=? 191))%nat.

(** The characters of a string, as [for ch in s] yields them: each leading
    byte with the continuation bytes after it. *)
Fixpoint utf8_chars (s : string) : list string :=
  match s with
  | EmptyString => []
  | String c s' =>
      match utf8_chars s' with
      | [] => [String c EmptyString]
      | ch :: rest =>
          match ch with
          | String c' _ =>
              if is_continuation c' then String c ch :: rest
              else String c EmptyString :: ch :: rest
          | EmptyString => String c EmptyString :: rest
          end
      end
  end.

(** [s.split(sep)[0]] for a one-character separator. *)
Fixpoint before_first (sep : ascii) (s : string) : string :=
  match s with
  | EmptyString => EmptyString
  | String c s' => if Ascii.eqb c sep then EmptyString else String c (before_first sep s')
  end.

(** [str(n)] and [f"{n}"] for an [int]. *)
Definition str_of_int (z : Z) : string := NilZero.string_of_int (Z.to_int z).

(** White space as [int()] sees it in an ASCII string: blank, \t, \n, \v,
    \f, \r. *)
Definition is_space (c : ascii) : bool :=
  ((nat_of_ascii c =? 32) || ((9 <=? nat_of_ascii c) && (nat_of_ascii c <=? 13)))%nat.

Fixpoint lstrip (s : string) : string :=
  match s with
  | EmptyString => EmptyString
  | String c s' => if is_space c then lstrip s' else s
  end.

Fixpoint rstrip (s : string) : string :=
  match s with
  | EmptyString => EmptyString
  | String c s' =>
      match rstrip s' with
      | EmptyString => if is_space c then EmptyString else String c EmptyString
      | r => String c r
      end
  end.

(** The digits of a decimal literal: one or more digits, single underscores
    allowed between two digits. *)
Fixpoint digits_value (s : string) (acc : Z) (after_digit : bool) : option Z :=
  match s with
  | EmptyString => if after_digit then Some acc else None
  | String c s' =>
      if is_digit c then digits_value s' (10 * acc + digit_value c) true
      else if Ascii.eqb c "_"%char
           then (if after_digit then digits_value s' acc false else None)
           else None
  end.

(** [int(s)] for a string [s]: surrounding white space, an optional sign,
    decimal digits.  Non-ASCII digits and blanks, which Python also accepts,
    are not recognised here; the 4300-digit limit of recent interpreters is
    not modelled. *)
Definition int_of_string (s : string) : result Z :=
  match rstrip (lstrip s) with
  | String "-"%char ds =>
      match digits_value ds 0 false with
      | Some z => Ok (- z)
      | None => Raise ValueError
      end
  | String "+"%char ds =>
      match digits_value ds 0 false with
      | Some z => Ok z
      | None => Raise ValueError
      end
  | ds =>
      match digits_value ds 0 false with
      | Some z => Ok z
      | None => Raise ValueError
      end
  end.

(** ** JSON values

    What [json.load] and [response.json()] return: [None], [bool], [int],
    [str], [list], [dict] with string keys.  Numbers are integers: the
    controller sends every attribute as a string, and the one number the
    snapshot writer adds (fabric_health) is an [int]; floating-point numbers
    are left out of the model.  A [JObj] lists the entries of the dict in
    insertion order; a lookup takes the first entry of a key. *)

Inductive json : Type :=
| JNull
| JBool (b : bool)
| JInt (z : Z)
| JStr (s : string)
| JList (l : list json)
| JObj (kv : list (string * json)).

Fixpoint assoc {V : Type} (k : string) (kv : list (string * V)) : option V :=
  match kv with
  | [] => None
  | (k', v) :: kv' => if String.eqb k k' then Some v else assoc k kv'
  end.

(** [bool(x)] *)
Definition truthy (x : json) : bool :=
  match x with
  | JNull => false
  | JBool b => b
  | JInt z => negb (z =? 0)
  | JStr s => negb (String.eqb s EmptyString)
  | JList l => match l with [] => false | _ => true end
  | JObj kv => match kv with [] => false | _ => true end
  end.

(** [x or y] *)
Definition py_or (x y : json) : json := if truthy x then x else y.

(** [isinstance(x, dict)] *)
Definition is_dict (x : json) : bool :=
  match x with JObj _ => true | _ => false end.

(** The hash key of a hashable value.  [True] and [1], [False] and [0] hash
    and compare alike; lists and dicts are unhashable. *)
Inductive hkey : Type :=
| KNone
| KNum (z : Z)
| KStr (s : string).

Definition hkey_eqb (a b : hkey) : bool :=
  match a, b with
  | KNone, KNone => true
  | KNum x, KNum y => x =? y
  | KStr x, KStr y => String.eqb x y
  | _, _ => false
  end.

Definition hash_key (x : json) : option hkey :=
  match x with
  | JNull => Some KNone
  | JBool b => Some (KNum (if b then 1 else 0))
  | JInt z => Some (KNum z)
  | JStr s => Some (KStr s)
  | JList _ => None
  | JObj _ => None
  end.

(** [hash(x)]: raises TypeError on a list or a dict. *)
Definition hashed (x : json) : result hkey :=
  match hash_key x with
  | Some h => Ok h
  | None => Raise TypeError
  end.

(** [x == y] on two hashable values. *)
Definition key_eqb (x y : json) : bool :=
  match hash_key x, hash_key y with
  | Some a, Some b => hkey_eqb a b
  | _, _ => false
  end.

(** [x == y] on arbitrary values: lists element by element, dicts entry by
    entry whatever the order. *)
Fixpoint py_eqb (x y : json) {struct x} : bool :=
  match x, y with
  | JList xs, JList ys =>
      (fix all2 (xs : list json) (ys : list json) {struct xs} : bool :=
         match xs, ys with
         | [], [] => true
         | x' :: xs', y' :: ys' => py_eqb x' y' && all2 xs' ys'
         | _, _ => false
         end) xs ys
  | JObj xkv, JObj ykv =>
      (List.length xkv =? List.length ykv)%nat &&
      (fix every (xkv : list (string * json)) {struct xkv} : bool :=
         match xkv with
         | [] => true
         | (k, v) :: xkv' =>
             match assoc k ykv with
             | Some v' => py_eqb v v' && every xkv'
             | None => false
             end
         end) xkv
  | _, _ => key_eqb x y
  end.

(** [x.get(k, d)]: a method of dicts only. *)
Definition get (x : json) (k : string) (d : json) : result json :=
  match x with
  | JObj kv => Ok (match assoc k kv with Some v => v | None => d end)
  | _ => Raise AttributeError
  end.

(** [x[k]] for a string [k]. *)
Definition getitem (x : json) (k : string) : result json :=
  match x with
  | JObj kv => match assoc k kv with Some v => Ok v | None => Raise KeyError end
  | _ => Raise TypeError
  end.

(** [k in x] for a string [k]. *)
Definition contains (k : string) (x : json) : result bool :=
  match x with
  | JObj kv => Ok (match assoc k kv with Some _ => true | None => false end)
  | JList l => Ok (existsb (py_eqb (JStr k)) l)
  | JStr s => Ok (is_substring k s)
  | _ => Raise TypeError
  end.

(** [for e in x]: the elements of a list, the keys of a dict, the characters
    of a string. *)
Definition iter (x : json) : result (list json) :=
  match x with
  | JList l => Ok l
  | JObj kv => Ok (map (fun p => JStr (fst p)) kv)
  | JStr s => Ok (map JStr (utf8_chars s))
  | _ => Raise TypeError
  end.

(** [next(iter(x.keys()), None)] *)
Definition first_key (x : json) : result (option string) :=
  match x with
  | JObj [] => Ok None
  | JObj ((k, _) :: _) => Ok (Some k)
  | _ => Raise AttributeError
  end.

(** [int(x)] *)
Definition int (x : json) : result Z :=
  match x with
  | JInt z => Ok z
  | JBool b => Ok (if b then 1 else 0)
  | JStr s => int_of_string s
  | _ => Raise TypeError
  end.

(** [x.lower()], [x.split(...)]: methods of strings only. *)
Definition as_str_method (x : json) : result string :=
  match x with
  | JStr s => Ok s
  | _ => Raise AttributeError
  end.

(** What the interpreter decides: the order in which a set hands out its
    elements (it follows the hashes, which change from run to run for
    strings), and the text [str()] gives for a list or a dict. *)
Record runtime : Type := {
  set_order : list json -> list json;
  repr : json -> string
}.

(** [str(x)] *)
Definition str (rt : runtime) (x : json) : string :=
  match x with
  | JNull => "None"%string
  | JBool true => "True"%string
  | JBool false => "False"%string
  | JInt z => str_of_int z
  | JStr s => s
  | _ => repr rt x
  end.

(** ** Sets and dicts

    A set is the list of its elements, a dict the list of its entries, both
    in insertion order and without two equal keys. *)

Definition mem (x : json) (s : list json) : bool := existsb (key_eqb x) s.

(** [s.add(x)]: an element already there stays as it is. *)
Definition set_add (s : list json) (x : json) : list json :=
  if mem x s then s else s ++ [x].

(** [a - b] *)
Definition set_diff (a b : list json) : list json :=
  filter (fun x => negb (mem x b)) a.

(** [a | b] *)
Definition set_union (a b : list json) : list json :=
  a ++ filter (fun x => negb (mem x a)) b.

(** [a & b] on sets and on dict key views: CPython walks the smaller
    operand (the right one when the sizes agree) and keeps its elements. *)
Definition set_inter (a b : list json) : list json :=
  if (List.length a <? List.length b)%nat
  then filter (fun x => mem x b) a
  else filter (fun x => mem x a) b.

Definition dict (V : Type) : Type := list (json * V).

Fixpoint dict_get {V : Type} (d : dict V) (k : json) : option V :=
  match d with
  | [] => None
  | (k', v) :: d' => if key_eqb k k' then Some v else dict_get d' k
  end.

(** [d[k] = v]: an existing key keeps its place and takes the new value. *)
Fixpoint dict_set {V : Type} (d : dict V) (k : json) (v : V) : dict V :=
  match d with
  | [] => [(k, v)]
  | (k', v') :: d' =>
      if key_eqb k k' then (k', v) :: d' else (k', v') :: dict_set d' k v
  end.

Definition keys {V : Type} (d : dict V) : list json := map fst d.

(** ** sorted()

    The arguments are lists drawn from sets of hashable values.  Strings
    compare by code point, numbers by value; any other pair of values raises
    TypeError, and every comparison sort compares each element with another
    one, so a list of two or more sorts only if it holds strings alone or
    numbers alone. *)

Fixpoint insert_by {A : Type} (leb : A -> A -> bool) (x : A) (l : list A) : list A :=
  match l with
  | [] => [x]
  | y :: l' => if leb x y then x :: l else y :: insert_by leb x l'
  end.

Definition sort_by {A : Type} (leb : A -> A -> bool) (l : list A) : list A :=
  fold_right (insert_by leb) [] l.

Definition str_of (x : json) : option string :=
  match x with JStr s => Some s | _ => None end.

Definition num_of (x : json) : option Z :=
  match x with
  | JInt z => Some z
  | JBool b => Some (if b then 1 else 0)
  | _ => None
  end.

Definition is_some {A : Type} (o : option A) : bool :=
  match o with Some _ => true | None => false end.

Definition json_leb (x y : json) : bool :=
  match x, y with
  | JStr a, JStr b => String.leb a b
  | _, _ =>
      match num_of x, num_of y with
      | Some a, Some b => a <=? b
      | _, _ => true
      end
  end.

Definition sorted (l : list json) : result (list json) :=
  if forallb (fun x => is_some (str_of x)) l then Ok (sort_by json_leb l)
  else if forallb (fun x => is_some (num_of x)) l then Ok (sort_by json_leb l)
  else if (List.length l <=? 1)%nat then Ok l
  else Raise TypeError.

End Py.

Export Py.

Notation "x <- c ;; k" := (bind c (fun x => k))
  (at level 61, c at next level, right associativity).

(** ** Regular expressions

    The fragment of [re] the sources use, with the semantics of a
    backtracking matcher: alternatives left to right, greedy repetitions
    longest first, lazy ones shortest first, and the first way through wins.
    Repetition is over a single character class, which is all the patterns
    need.  [\d] is [0-9]: the digits of other scripts, which [re] also takes
    in a [str] pattern, are outside the model. *)

Module Re.

Inductive regex : Type :=
| Lit (w : string)                               (* the characters of w *)
| Chr (p : ascii -> bool)                        (* one character of a class *)
| Star (greedy : bool) (p : ascii -> bool)       (* p* and p*? *)
| Cat (r1 r2 : regex)
| Alt (r1 r2 : regex)
| Group (n : nat) (r : regex).                   (* capturing group number n *)

(** [p+] *)
Definition Plus (p : ascii -> bool) : regex := Cat (Chr p) (Star true p).

(** [.] matches anything but a newline. *)
Definition dot (c : ascii) : bool := negb (Ascii.eqb c "010"%char).

Definition one_of (lo hi : ascii) (c : ascii) : bool :=
  ((nat_of_ascii lo <=? nat_of_ascii c) && (nat_of_ascii c <=? nat_of_ascii hi))%nat.

Definition captures : Type := list (nat * string).

Fixpoint group (n : nat) (c : captures) : option string :=
  match c with
  | [] => None
  | (m, s) :: c' => if Nat.eqb n m then Some s else group n c'
  end.

(** The remainder of [s] after the prefix [w], when [s] starts with it. *)
Fixpoint strip_prefix (w s : string) : option string :=
  match w, s with
  | EmptyString, _ => Some s
  | String a w', String b s' => if Ascii.eqb a b then strip_prefix w' s' else None
  | String _ _, EmptyString => None
  end.

(** The first [n] bytes of [s]. *)
Fixpoint take (n : nat) (s : string) : string :=
  match n, s with
  | S n', String c s' => String c (take n' s')
  | _, _ => EmptyString
  end.

(** What was consumed between the input [s] and its suffix [rest]. *)
Definition consumed (s rest : string) : string :=
  take (String.length s - String.length rest) s.

Section Matcher.

Variable R : Type.

(** [run r s caps k]: match [r] at the start of [s], then hand the rest of
    the input and the captures to [k]; when [k] fails, try the next way of
    matching [r]. *)
Fixpoint run (r : regex) (s : string) (caps : captures)
  (k : string -> captures -> option R) {struct r} : option R :=
  match r with
  | Lit w =>
      match strip_prefix w s with
      | Some rest => k rest caps
      | None => None
      end
  | Chr p =>
      match s with
      | String c rest => if p c then k rest caps else None
      | EmptyString => None
      end
  | Star true p =>
      (fix star (s : string) : option R :=
         match s with
         | String c rest =>
             if p c
             then match star rest with
                  | Some x => Some x
                  | None => k s caps
                  end
             else k s caps
         | EmptyString => k s caps
         end) s
  | Star false p =>
      (fix star (s : string) : option R :=
         match k s caps with
         | Some x => Some x
         | None =>
             match s with
             | String c rest => if p c then star rest else None
             | EmptyString => None
             end
         end) s
  | Cat r1 r2 => run r1 s caps (fun rest caps' => run r2 rest caps' k)
  | Alt r1 r2 =>
      match run r1 s caps k with
      | Some x => Some x
      | None => run r2 s caps k
      end
  | Group n r1 =>
      run r1 s caps (fun rest caps' => k rest ((n, consumed s rest) :: caps'))
  end.

End Matcher.

Arguments run {R} r s caps k.

(** [re.match(r, s)]: the captures and the unmatched rest. *)
Definition rmatch (r : regex) (s : string) : option (captures * string) :=
  run r s [] (fun rest caps => Some (caps, rest)).

(** [re.search(r, s)]: the leftmost position where [r] matches. *)
Fixpoint search (r : regex) (s : string) : option captures :=
  match rmatch r s with
  | Some (caps, _) => Some caps
  | None =>
      match s with
      | String _ s' => search r s'
      | EmptyString => None
      end
  end.

(** [m.group(n)] of a group that took part in the match. *)
Definition group_or_empty (n : nat) (c : captures) : string :=
  match group n c with
  | Some s => s
  | None => EmptyString
  end.

End Re.

Export Re.

(** * comparer.py *)

Module Comparer.

(** The arrow of the change strings, [" ➜ "] (U+279C between two blanks). *)
Definition arrow : string := " ➜ "%string.

(** [f"{b} ➜ {a}"], lines 95, 128, 154, 179 *)
Definition change_text (b a : Z) : string := str_of_int b +++ arrow +++ str_of_int a.

(** summarize_interfaces, lines 10-18 *)
Definition summarize_interfaces (data : json) : result (dict json) :=
  records <- iter data ;;
  for_each
    (fun (result : dict json) (intf : json) =>
       obj <- get intf "l1PhysIf" (JObj []) ;;
       attrs <- get obj "attributes" (JObj []) ;;
       dn <- get attrs "dn" JNull ;;
       state <- get attrs "operSt" JNull ;;
       if truthy dn && truthy state
       then (_ <- hashed dn ;; Ok (dict_set result dn state))
       else Ok result)
    records [].

(** summarize_interface_errors, lines 20-29 *)
Definition summarize_interface_errors (interface_errors : json) : result (dict Z) :=
  entries <- iter interface_errors ;;
  for_each
    (fun (summary : dict Z) (entry : json) =>
       dn <- get entry "dn" JNull ;;
       crc_v <- get entry "crc" (JInt 0) ;;
       crc <- int crc_v ;;
       discards_v <- get entry "inputDiscards" (JInt 0) ;;
       input_discards <- int discards_v ;;
       let total_errors := crc + input_discards in
       if truthy dn
       then (_ <- hashed dn ;; Ok (dict_set summary dn total_errors))
       else Ok summary)
    entries [].

(** The pattern of line 37: [node-(\d+).*phys-\[(.*?)\]] *)
Definition dn_pattern : regex :=
  Cat (Lit "node-")
   (Cat (Group 1 (Plus is_digit))
    (Cat (Star true dot)
     (Cat (Lit "phys-[")
      (Cat (Group 2 (Star false dot))
           (Lit "]"))))).

(** extract_interface_from_dn, lines 31-42.  The pair is [(None, None)] when
    the pattern does not match. *)
Definition extract_interface_from_dn (dn : string) : option string * option string :=
  match search dn_pattern dn with
  | Some m =>
      let node_id := "node-" +++ group_or_empty 1 m in
      let port := group_or_empty 2 m in
      (Some node_id, Some port)
  | None => (None, None)
  end.

(** A report key of the counter diffs: the tuple the extractor returns. *)
Definition port_key : Type := (option string * option string)%type.

Definition opt_eqb (a b : option string) : bool :=
  match a, b with
  | Some x, Some y => String.eqb x y
  | None, None => true
  | _, _ => false
  end.

Definition port_key_eqb (a b : port_key) : bool :=
  opt_eqb (fst a) (fst b) && opt_eqb (snd a) (snd b).

(** [d[k] = v] on a dict whose keys are such tuples. *)
Fixpoint port_set (d : list (port_key * string)) (k : port_key) (v : string)
  : list (port_key * string) :=
  match d with
  | [] => [(k, v)]
  | (k', v') :: d' =>
      if port_key_eqb k k' then (k', v) :: d' else (k', v') :: port_set d' k v
  end.


(** [d.get(k, 0)] on a table of counters *)
Definition count (d : dict Z) (k : json) : Z :=
  match dict_get d k with
  | Some n => n
  | None => 0
  end.

(** The set comprehensions of lines 58-59 and 182-183:
    [{r[cls]["attributes"]["dn"] for r in records}] *)
Definition dn_set (cls : string) (records : json) : result (list json) :=
  rs <- iter records ;;
  for_each
    (fun (acc : list json) (r : json) =>
       obj <- getitem r cls ;;
       attrs <- getitem obj "attributes" ;;
       dn <- getitem attrs "dn" ;;
       _ <- hashed dn ;;
       Ok (set_add acc dn))
    rs [].

(** The dict comprehensions of lines 64-65:
    [{ep["fvCEp"]["attributes"]["dn"]: ep["fvCEp"]["attributes"].get("ip") for ep in records}] *)
Definition endpoint_table (records : json) : result (dict json) :=
  eps <- iter records ;;
  for_each
    (fun (acc : dict json) (ep : json) =>
       obj <- getitem ep "fvCEp" ;;
       attrs <- getitem obj "attributes" ;;
       dn <- getitem attrs "dn" ;;
       obj' <- getitem ep "fvCEp" ;;
       attrs' <- getitem obj' "attributes" ;;
       ip <- get attrs' "ip" JNull ;;
       _ <- hashed dn ;;
       Ok (dict_set acc dn ip))
    eps [].

(** [d[k]] for a key known to be there *)
Definition value_at (d : dict json) (k : json) : json :=
  match dict_get d k with
  | Some v => v
  | None => JNull
  end.

(** The loops of lines 99-106 and 108-115 (class rmonEtherStats, field
    cRCAlignErrors), 133-139 and 140-146 (rmonEgrCounters, dropPkts),
    158-164 and 165-171 (rmonIfOut, outErrors): the same text but for the
    two names. *)
Definition counter_table (cls field : string) (records : json) : result (dict Z) :=
  es <- iter records ;;
  for_each
    (fun (table : dict Z) (e : json) =>
       has_cls <- contains cls e ;;
       if has_cls then
         obj <- getitem e cls ;;
         has_attrs <- contains "attributes" obj ;;
         if has_attrs then
           attrs <- getitem obj "attributes" ;;
           dn <- get attrs "dn" JNull ;;
           v <- get attrs field (JInt 0) ;;
           n <- int v ;;
           if truthy dn
           then (_ <- hashed dn ;; Ok (dict_set table dn n))
           else Ok table
         else Ok table
       else Ok table)
    es [].

(** [re.search(pattern, dn)] raises TypeError unless [dn] is a string. *)
Definition extract_of (dn : json) : result port_key :=
  match dn with
  | JStr s => Ok (extract_interface_from_dn s)
  | _ => Raise TypeError
  end.

(** The loops of lines 121-128, 149-154 and 174-179. *)
Definition counter_changes (rt : runtime) (before_tbl after_tbl : dict Z)
  : result (list (port_key * string)) :=
  let all_interfaces := set_union (keys before_tbl) (keys after_tbl) in
  for_each
    (fun (changes : list (port_key * string)) (dn : json) =>
       let b := count before_tbl dn in
       let a := count after_tbl dn in
       if a >? b then
         interface_name <- extract_of dn ;;
         Ok (port_set changes interface_name (change_text b a))
       else Ok changes)
    (set_order rt all_interfaces) [].

(** The loop of lines 90-95: the key is the DN itself. *)
Definition error_changes (rt : runtime) (before_errs after_errs : dict Z)
  : result (dict string) :=
  for_each
    (fun (changes : dict string) (dn : json) =>
       let b := count before_errs dn in
       let a := count after_errs dn in
       if a >? b then Ok (dict_set changes dn (change_text b a))
       else Ok changes)
    (set_order rt (set_union (keys before_errs) (keys after_errs))) [].

(** The list comprehension of lines 77-81. *)
Definition status_changes (rt : runtime) (before_intfs after_intfs : dict json)
  : list string :=
  map (fun k => str rt k +++ ": " +++ str rt (value_at before_intfs k)
                 +++ arrow +++ str rt (value_at after_intfs k))
      (filter (fun k => negb (py_eqb (value_at before_intfs k) (value_at after_intfs k)))
              (set_order rt (set_inter (keys before_intfs) (keys after_intfs)))).

Record interface_changes : Type := {
  status_changed : list string;
  missing : list json;
  new : list json
}.

Record route_changes : Type := {
  routes_missing : list json;
  routes_new : list json
}.

Record comparison : Type := {
  fabric_health : json * json;                       (* before, after *)
  new_faults : list json;
  cleared_faults : list json;
  new_endpoints : list json;
  missing_endpoints : list json;
  moved_endpoints : list json;
  interface_changes_of : interface_changes;
  interface_error_changes : dict string;
  crc_error_changes : list (port_key * string);
  drop_error_changes : list (port_key * string);
  output_error_changes : list (port_key * string);
  urib_route_changes : route_changes
}.

(** [sorted(s)] for a set [s] *)
Definition sorted_set (rt : runtime) (s : list json) : result (list json) :=
  sorted (set_order rt s).

(** compare_snapshots, lines 44-190, on the two loaded documents. *)
Definition compare_snapshots (rt : runtime) (before after : json) : result comparison :=
  (* Fabric Health *)
  health_before <- get before "fabric_health" JNull ;;
  health_after <- get after "fabric_health" JNull ;;
  (* Faults *)
  faults_b <- get before "faults" (JList []) ;;
  before_faults <- dn_set "faultInst" faults_b ;;
  faults_a <- get after "faults" (JList []) ;;
  after_faults <- dn_set "faultInst" faults_a ;;
  new_faults <- sorted_set rt (set_diff after_faults before_faults) ;;
  cleared_faults <- sorted_set rt (set_diff before_faults after_faults) ;;
  (* Endpoints *)
  eps_b <- get before "endpoints" (JList []) ;;
  before_eps <- endpoint_table eps_b ;;
  eps_a <- get after "endpoints" (JList []) ;;
  after_eps <- endpoint_table eps_a ;;
  new_endpoints <- sorted_set rt (set_diff (keys after_eps) (keys before_eps)) ;;
  missing_endpoints <- sorted_set rt (set_diff (keys before_eps) (keys after_eps)) ;;
  moved_endpoints <-
    sorted (filter (fun dn => negb (py_eqb (value_at before_eps dn) (value_at after_eps dn)))
                   (set_order rt (set_inter (keys before_eps) (keys after_eps)))) ;;
  (* Interface status *)
  intfs_b <- get before "interfaces" (JList []) ;;
  before_intfs <- summarize_interfaces intfs_b ;;
  intfs_a <- get after "interfaces" (JList []) ;;
  after_intfs <- summarize_interfaces intfs_a ;;
  let changed := status_changes rt before_intfs after_intfs in
  intf_missing <- sorted_set rt (set_diff (keys before_intfs) (keys after_intfs)) ;;
  intf_new <- sorted_set rt (set_diff (keys after_intfs) (keys before_intfs)) ;;
  (* Interface Errors *)
  errs_b <- get before "interface_errors" (JList []) ;;
  before_errs <- summarize_interface_errors errs_b ;;
  errs_a <- get after "interface_errors" (JList []) ;;
  after_errs <- summarize_interface_errors errs_a ;;
  error_changes <- error_changes rt before_errs after_errs ;;
  (* CRC Errors *)
  crc_b <- get before "crc_errors" (JList []) ;;
  before_crc <- counter_table "rmonEtherStats" "cRCAlignErrors" crc_b ;;
  crc_a <- get after "crc_errors" (JList []) ;;
  after_crc <- counter_table "rmonEtherStats" "cRCAlignErrors" crc_a ;;
  crc_changes <- counter_changes rt before_crc after_crc ;;
  (* Interface Drop Errors *)
  drop_b <- get before "drop_errors" (JList []) ;;
  before_drop <- counter_table "rmonEgrCounters" "dropPkts" drop_b ;;
  drop_a <- get after "drop_errors" (JList []) ;;
  after_drop <- counter_table "rmonEgrCounters" "dropPkts" drop_a ;;
  drop_changes <- counter_changes rt before_drop after_drop ;;
  (* Output Errors *)
  out_b <- get before "output_errors" (JList []) ;;
  before_output <- counter_table "rmonIfOut" "outErrors" out_b ;;
  out_a <- get after "output_errors" (JList []) ;;
  after_output <- counter_table "rmonIfOut" "outErrors" out_a ;;
  output_changes <- counter_changes rt before_output after_output ;;
  (* URIB routes *)
  routes_b <- get before "urib_routes" (JList []) ;;
  before_routes <- dn_set "uribv4Route" routes_b ;;
  routes_a <- get after "urib_routes" (JList []) ;;
  after_routes <- dn_set "uribv4Route" routes_a ;;
  r_missing <- sorted_set rt (set_diff before_routes after_routes) ;;
  r_new <- sorted_set rt (set_diff after_routes before_routes) ;;
  Ok {| fabric_health := (health_before, health_after);
        new_faults := new_faults;
        cleared_faults := cleared_faults;
        new_endpoints := new_endpoints;
        missing_endpoints := missing_endpoints;
        moved_endpoints := moved_endpoints;
        interface_changes_of :=
          {| status_changed := changed; missing := intf_missing; new := intf_new |};
        interface_error_changes := error_changes;
        crc_error_changes := crc_changes;
        drop_error_changes := drop_changes;
        output_error_changes := output_changes;
        urib_route_changes :=
          {| routes_missing := r_missing; routes_new := r_new |} |}.

End Comparer.

(** * checklist_aci.py *)

Module HealthCheck.

(** ** datetime

    A naive [datetime]; [<] compares the fields from the year down. *)

Record datetime : Type := {
  year : Z; month : Z; day : Z;
  hour : Z; minute : Z; second : Z; microsecond : Z
}.

Fixpoint lex_ltb (a b : list Z) : bool :=
  match a, b with
  | x :: a', y :: b' => (x <? y) || ((x =? y) && lex_ltb a' b')
  | _, _ => false
  end.

Definition fields (d : datetime) : list Z :=
  [year d; month d; day d; hour d; minute d; second d; microsecond d].

Definition dt_ltb (a b : datetime) : bool := lex_ltb (fields a) (fields b).

Definition is_leap (y : Z) : bool :=
  (y mod 4 =? 0) && (negb (y mod 100 =? 0) || (y mod 400 =? 0)).

Definition days_in_month (y m : Z) : Z :=
  if m =? 2 then (if is_leap y then 29 else 28)
  else if (m =? 4) || (m =? 6) || (m =? 9) || (m =? 11) then 30
  else 31.

Definition ch (c : ascii) : regex := Chr (Ascii.eqb c).
Definition rng (lo hi : ascii) : regex := Chr (one_of lo hi).
Definition digit : regex := Chr is_digit.

(** The expression [_strptime] builds for ["%Y-%m-%dT%H:%M:%S"]; it is
    compiled with IGNORECASE, so the letter between date and time may be
    [t]. *)
Definition iso_pattern : regex :=
  Cat (Group 1 (Cat digit (Cat digit (Cat digit digit))))
 (Cat (ch "-")
 (Cat (Group 2 (Alt (Cat (ch "1") (rng "0" "2"))
               (Alt (Cat (ch "0") (rng "1" "9"))
                    (rng "1" "9"))))
 (Cat (ch "-")
 (Cat (Group 3 (Alt (Cat (ch "3") (rng "0" "1"))
               (Alt (Cat (rng "1" "2") digit)
               (Alt (Cat (ch "0") (rng "1" "9"))
               (Alt (rng "1" "9")
                    (Cat (ch " ") (rng "1" "9")))))))
 (Cat (Chr (fun c => Ascii.eqb c "T" || Ascii.eqb c "t"))
 (Cat (Group 4 (Alt (Cat (ch "2") (rng "0" "3"))
               (Alt (Cat (rng "0" "1") digit)
                    digit)))
 (Cat (ch ":")
 (Cat (Group 5 (Alt (Cat (rng "0" "5") digit) digit))
 (Cat (ch ":")
      (Group 6 (Alt (Cat (ch "6") (rng "0" "1"))
               (Alt (Cat (rng "0" "5") digit)
                    digit)))))))))))).

Definition number (n : nat) (m : captures) : Z :=
  try_except (int_of_string (group_or_empty n m)) 0.

(** [datetime.strptime(s, "%Y-%m-%dT%H:%M:%S")]; [None] stands for the
    ValueError of a string that does not match, of text left over, and of a
    date or a second [datetime] refuses. *)
Definition strptime (s : string) : option datetime :=
  match rmatch iso_pattern s with
  | Some (m, EmptyString) =>
      let y := number 1 m in
      let mo := number 2 m in
      let d := number 3 m in
      let sec := number 6 m in
      if (1 <=? y) && (d <=? days_in_month y mo) && (sec <=? 59)
      then Some {| year := y; month := mo; day := d;
                   hour := number 4 m; minute := number 5 m; second := sec;
                   microsecond := 0 |}
      else None
  | _ => None
  end.

(** [x in tokens] for a string [x] *)
Definition among (tokens : list string) (x : string) : bool :=
  existsb (String.eqb x) tokens.

(** [if not class_key: continue]: no key, or the empty key *)
Definition usable_key (k : option string) : option string :=
  match k with
  | Some s => if String.eqb s EmptyString then None else Some s
  | None => None
  end.

(** ** DataProcessor.process_apic_data, lines 204-263 *)

Record apic_node : Type := {
  name : json;
  serial : json;
  ip : option json;          (* the first branch writes no "ip" *)
  mode : json;
  status : json;
  health_str : json;
  health : Z
}.

Definition empty : json := JStr EmptyString.

(** The node built by lines 213-224. *)
Definition wi_node (rt : runtime) (node : json) : result apic_node :=
  attrs <- (if is_dict node then get node "attributes" (JObj []) else Ok (JObj [])) ;;
  nodeName <- get attrs "nodeName" JNull ;;
  name1 <- get attrs "name" JNull ;;
  id <- get attrs "id" empty ;;
  let name := py_or (py_or nodeName name1) id in
  mbSn <- get attrs "mbSn" JNull ;;
  serial1 <- get attrs "serial" empty ;;
  let serial := py_or mbSn serial1 in
  mode <- get attrs "apicMode" empty ;;
  status <- get attrs "operSt" empty ;;
  health_str <- get attrs "health" (JStr "unknown") ;;
  h <- get attrs "health" empty ;;
  health <-
    (if among ["fully-fit"; "100"]%string (lower (str rt h)) then Ok 100
     else if String.eqb (lower (str rt h)) "degraded" then Ok 50
     else (h0 <- get attrs "health" (JInt 0) ;; int (py_or h0 (JInt 0)))) ;;
  Ok {| name := name; serial := serial; ip := None; mode := mode;
        status := status; health_str := health_str; health := health |}.

(** The node built by lines 232-262; [None] is a [continue]. *)
Definition imdata_node (rt : runtime) (entry : json) : result (option apic_node) :=
  if negb (is_dict entry) then Ok None else
  k <- first_key entry ;;
  match usable_key k with
  | None => Ok None
  | Some class_key =>
      obj <- get entry class_key (JObj []) ;;
      attrs <- get obj "attributes" (JObj []) ;;
      nodeName <- get attrs "nodeName" JNull ;;
      name1 <- get attrs "name" JNull ;;
      id <- get attrs "id" JNull ;;
      let name := py_or (py_or (py_or nodeName name1) id) empty in
      mbSn <- get attrs "mbSn" JNull ;;
      serial1 <- get attrs "serial" JNull ;;
      let serial := py_or (py_or mbSn serial1) empty in
      oob <- get attrs "oobNetwork" JNull ;;
      ip <-
        (if is_dict oob then
           oob' <- get attrs "oobNetwork" (JObj []) ;;
           a4 <- get oob' "address4" empty ;;
           a4s <- as_str_method a4 ;;
           Ok (JStr (before_first "/" a4s))
         else
           mgmt <- get attrs "oobMgmtAddr" empty ;;
           addr <- get attrs "address" empty ;;
           Ok (py_or mgmt addr)) ;;
      h <- get attrs "health" JNull ;;
      rollup <- get attrs "healthRollup" JNull ;;
      let health_str := py_or (py_or h rollup) empty in
      let numeric_health :=
        try_except
          (cur <- get attrs "cur" (JInt 0) ;;
           h' <- get attrs "health" cur ;;
           int (py_or h' (JInt 0)))
          (if among ["fully-fit"; "fully fit"]%string (lower (str rt health_str)) then 100
           else if String.eqb (lower (str rt health_str)) "degraded" then 50
           else 0) in
      mode <- get attrs "apicMode" empty ;;
      status0 <- get attrs "status" empty ;;
      status <- get attrs "operSt" status0 ;;
      Ok (Some {| name := name; serial := serial; ip := Some ip; mode := mode;
                  status := status;
                  health_str := if truthy health_str then health_str
                                else JStr (str_of_int numeric_health);
                  health := numeric_health |})
  end.

Definition process_apic_data (rt : runtime) (data : json) : result (list apic_node) :=
  if negb (truthy data) then Ok [] else
  let wi := match data with
            | JObj kv => match assoc "infraWiNode" kv with
                         | Some (JList l) => Some l
                         | _ => None
                         end
            | _ => None
            end in
  match wi with
  | Some l =>
      for_each (fun nodes node => n <- wi_node rt node ;; Ok (nodes ++ [n])) l []
  | None =>
      let imdata := match data with
                    | JObj kv => match assoc "imdata" kv with Some v => v | None => JNull end
                    | _ => JNull
                    end in
      if negb (truthy imdata) then Ok [] else
      entries <- iter imdata ;;
      for_each
        (fun nodes entry =>
           n <- imdata_node rt entry ;;
           match n with
           | Some n' => Ok (nodes ++ [n'])
           | None => Ok nodes
           end)
        entries []
  end.

(** ** DataProcessor.process_faults, lines 401-440

    [time_threshold] is [datetime.now() - timedelta(hours=hours_back)] of
    line 410: the clock is an input. *)

Record fault : Type := {
  severity : string;
  code : json;
  description : json;
  last_change : json;
  dn : json
}.

(** One turn of the loop of lines 412-439: [None] is a fault left out. *)
Definition fault_of (time_threshold : datetime) (f : json) : result (option fault) :=
  k <- first_key f ;;
  match usable_key k with
  | None => Ok None
  | Some class_key =>
      obj <- getitem f class_key ;;
      attr <- get obj "attributes" (JObj []) ;;
      sev <- get attr "severity" empty ;;
      sev_s <- as_str_method sev ;;
      if among ["critical"; "major"]%string (lower sev_s) then
        last_change_str <- get attr "lastTransition" empty ;;
        too_old <-
          (if truthy last_change_str then
             s <- as_str_method last_change_str ;;
             match strptime (before_first "." s) with
             | Some last_change => Ok (dt_ltb last_change time_threshold)
             | None => Ok false
             end
           else Ok false) ;;
        if too_old then Ok None else
        code <- get attr "code" empty ;;
        descr <- get attr "descr" empty ;;
        dn <- get attr "dn" empty ;;
        Ok (Some {| severity := sev_s; code := code; description := descr;
                    last_change := last_change_str; dn := dn |})
      else Ok None
  end.

Definition process_faults (time_threshold : datetime) (data : json) : result (list fault) :=
  if negb (truthy data) then Ok [] else
  has_imdata <- contains "imdata" data ;;
  if negb has_imdata then Ok [] else
  imdata <- get data "imdata" (JList []) ;;
  fs <- iter imdata ;;
  for_each
    (fun faults f =>
       r <- fault_of time_threshold f ;;
       match r with
       | Some row => Ok (faults ++ [row])
       | None => Ok faults
       end)
    fs [].

(** ** DataProcessor._process_interface_errors, lines 493-531 *)

(** [node-(\d+)], line 520 *)
Definition node_pattern : regex := Cat (Lit "node-") (Group 1 (Plus is_digit)).

(** [(phys|aggr)-\[(.*?)\]], line 516 *)
Definition port_pattern : regex :=
  Cat (Group 1 (Alt (Lit "phys") (Lit "aggr")))
   (Cat (Lit "-[")
    (Cat (Group 2 (Star false dot))
         (Lit "]"))).

(** Lines 513-522: the node and the interface of a DN. *)
Definition locate (dn : string) : string * string :=
  let interface_name :=
    match search port_pattern dn with
    | Some m => group_or_empty 2 m
    | None => "Unknown"%string
    end in
  let node_id :=
    match search node_pattern dn with
    | Some m => "node-" +++ group_or_empty 1 m
    | None => "Unknown"%string
    end in
  (node_id, interface_name).

Record interface_error : Type := {
  ie_node : string;
  ie_interface : string;
  ie_errors : Z;               (* stored under the key [error_field] *)
  ie_dn : string
}.

Definition process_interface_errors (data : json) (threshold : Z)
  (primary_key secondary_key : string) : result (list interface_error) :=
  if negb (truthy data) then Ok [] else
  has_imdata <- contains "imdata" data ;;
  if negb has_imdata then Ok [] else
  imdata <- get data "imdata" (JList []) ;;
  items <- iter imdata ;;
  for_each
    (fun interfaces item =>
       k <- first_key item ;;
       match usable_key k with
       | None => Ok interfaces
       | Some class_key =>
           obj <- getitem item class_key ;;
           attr <- get obj "attributes" (JObj []) ;;
           second <- get attr secondary_key (JInt 0) ;;
           v <- get attr primary_key (py_or second (JInt 0)) ;;
           errors <- int v ;;
           if errors >? threshold then
             dn <- get attr "dn" empty ;;
             match dn with
             | JStr s =>
                 let '(node_id, interface_name) := locate s in
                 Ok (interfaces ++ [{| ie_node := node_id; ie_interface := interface_name;
                                       ie_errors := errors; ie_dn := s |}])
             | _ => Raise TypeError
             end
           else Ok interfaces
       end)
    items [].

(** ** ReportGenerator.generate_summary, lines 681-765

    The node dicts are the ones process_apic_data and process_leaf_spine
    build, in which every key is present; only the keys the summary reads
    are kept.  cpu and memory are floats: a finite float is a rational, and
    Python compares it with the integer threshold exactly. *)

Record leaf_spine_node : Type := {
  ls_health : Z;
  ls_cpu : Q;
  ls_memory : Q
}.

Record thresholds : Type := {
  health_threshold : Z;
  cpu_mem_threshold : Z;
  interface_threshold : Z
}.

Record summary : Type := {
  overall_status : string;
  apic_status : string;
  apic_total : nat;
  apic_problems : nat;
  leaf_spine_status : string;
  leaf_spine_total : nat;
  leaf_spine_health_problems : nat;
  leaf_spine_cpu_problems : nat;
  leaf_spine_mem_problems : nat;
  fabric_status : string;
  fabric_score : Z;
  faults_critical : nat;
  faults_major : nat;
  fcs_status : string; fcs_count : nat;
  crc_status : string; crc_count : nat;
  drop_status : string; drop_count : nat;
  output_status : string; output_count : nat;
  summary_thresholds : thresholds
}.

Definition pass_fail (ok : bool) : string := if ok then "PASS"%string else "FAIL"%string.

(** [x < t] for a float [x] and an integer [t] *)
Definition below (x : Q) (t : Z) : bool := negb (Qle_bool (inject_Z t) x).

(** [all(...) if xs else False] *)
Definition all_if_any {A : Type} (p : A -> bool) (xs : list A) : bool :=
  match xs with
  | [] => false
  | _ => forallb p xs
  end.

Definition generate_summary (self : thresholds)
  (apic_nodes : list apic_node) (leaf_spine_nodes : list leaf_spine_node)
  (faults : list fault) (fabric_health : Z)
  (fcs_errors crc_errors drop_errors output_errors : list interface_error) : summary :=
  (* APIC Health *)
  let apic_health_ok :=
    all_if_any (fun n => health n >=? health_threshold self) apic_nodes in
  let apic_count := List.length apic_nodes in
  let apic_problem_count :=
    List.length (filter (fun n => health n <? health_threshold self) apic_nodes) in
  (* Leaf/Spine Health *)
  let leaf_spine_health_ok :=
    all_if_any (fun n => ls_health n >=? health_threshold self) leaf_spine_nodes in
  let leaf_spine_count := List.length leaf_spine_nodes in
  let leaf_spine_health_problem_count :=
    List.length (filter (fun n => ls_health n <? health_threshold self) leaf_spine_nodes) in
  (* CPU/Memory Health *)
  let cpu_mem_ok :=
    all_if_any (fun n => below (ls_cpu n) (cpu_mem_threshold self)
                         && below (ls_memory n) (cpu_mem_threshold self))
               leaf_spine_nodes in
  let cpu_problem_count :=
    List.length (filter (fun n => negb (below (ls_cpu n) (cpu_mem_threshold self)))
                        leaf_spine_nodes) in
  let mem_problem_count :=
    List.length (filter (fun n => negb (below (ls_memory n) (cpu_mem_threshold self)))
                        leaf_spine_nodes) in
  (* Fabric Health *)
  let fabric_health_ok := fabric_health >=? health_threshold self in
  (* Faults *)
  let critical_faults :=
    List.length (filter (fun f => String.eqb (lower (severity f)) "critical") faults) in
  let major_faults :=
    List.length (filter (fun f => String.eqb (lower (severity f)) "major") faults) in
  (* Error counts *)
  let fcs_error_count := List.length fcs_errors in
  let crc_error_count := List.length crc_errors in
  let drop_error_count := List.length drop_errors in
  let output_error_count := List.length output_errors in
  (* Overall status *)
  let overall_ok :=
    apic_health_ok && leaf_spine_health_ok && cpu_mem_ok &&
    fabric_health_ok && (critical_faults =? 0)%nat && (major_faults =? 0)%nat &&
    (crc_error_count =? 0)%nat && (fcs_error_count =? 0)%nat &&
    (drop_error_count =? 0)%nat && (output_error_count =? 0)%nat in
  {| overall_status := pass_fail overall_ok;
     apic_status := pass_fail apic_health_ok;
     apic_total := apic_count;
     apic_problems := apic_problem_count;
     leaf_spine_status := pass_fail leaf_spine_health_ok;
     leaf_spine_total := leaf_spine_count;
     leaf_spine_health_problems := leaf_spine_health_problem_count;
     leaf_spine_cpu_problems := cpu_problem_count;
     leaf_spine_mem_problems := mem_problem_count;
     fabric_status := pass_fail fabric_health_ok;
     fabric_score := fabric_health;
     faults_critical := critical_faults;
     faults_major := major_faults;
     fcs_status := pass_fail (fcs_error_count =? 0)%nat;
     fcs_count := fcs_error_count;
     crc_status := pass_fail (crc_error_count =? 0)%nat;
     crc_count := crc_error_count;
     drop_status := pass_fail (drop_error_count =? 0)%nat;
     drop_count := drop_error_count;
     output_status := pass_fail (output_error_count =? 0)%nat;
     output_count := output_error_count;
     summary_thresholds := self |}.

(** ** DataProcessor.process_fabric_health, lines 442-463 *)

(** The outcome of a block guarded by [except Exception]: the exception, if
    any, is gone. *)
Definition caught {A : Type} (c : result A) : option A :=
  match c with
  | Ok a => Some a
  | Raise _ => None
  end.

Definition and_then {A B : Type} (o : option A) (k : A -> option B) : option B :=
  match o with
  | Some a => k a
  | None => None
  end.

(** [x[0]] inside a [try]: [None] stands for the IndexError of an empty
    list, the KeyError of a dict, the TypeError of anything else. *)
Definition index0 (x : json) : option json :=
  match x with
  | JList (a :: _) => Some a
  | JStr s => match utf8_chars s with
              | c :: _ => Some (JStr c)
              | [] => None
              end
  | _ => None
  end.

(** [int(health_attr.get("cur", 0))] inside the [try] of lines 453-456 *)
Definition cur_or_zero (health_attr : json) : Z :=
  try_except (cur <- get health_attr "cur" (JInt 0) ;; int cur) 0.

(** The loop of lines 449-456: [Some n] is a [return n], [None] a loop that
    ran to its end. *)
Fixpoint first_total (items : list json) : result (option Z) :=
  match items with
  | [] => Ok None
  | item :: rest =>
      k <- first_key item ;;
      match usable_key k with
      | Some key =>
          if is_substring "fabricHealthTotal" key then
            obj <- getitem item key ;;
            health_attr <- get obj "attributes" (JObj []) ;;
            Ok (Some (cur_or_zero health_attr))
          else first_total rest
      | None => first_total rest
      end
  end.

(** The fallback of lines 459-463.  [next(iter(...))] has no default here:
    an empty first record raises StopIteration, which the [except] takes as
    well. *)
Definition fallback_health (data : json) : Z :=
  match
    and_then (caught (getitem data "imdata")) (fun imdata =>
    and_then (index0 imdata) (fun first =>
    and_then (caught (first_key first)) (fun k =>
    and_then k (fun key =>
    and_then (caught (getitem first key)) (fun obj =>
    and_then (caught (get obj "attributes" (JObj []))) (fun health_attr =>
    and_then (caught (get health_attr "cur" (JInt 0))) (fun cur =>
    caught (int (py_or cur (JInt 0))))))))))
  with
  | Some n => n
  | None => 0
  end.

Definition process_fabric_health (data : json) : result Z :=
  if negb (truthy data) then Ok 0 else
  has_imdata <- contains "imdata" data ;;
  if negb has_imdata then Ok 0 else
  imdata0 <- getitem data "imdata" ;;
  if negb (truthy imdata0) then Ok 0 else
  imdata <- get data "imdata" (JList []) ;;
  items <- iter imdata ;;
  found <- first_total items ;;
  match found with
  | Some n => Ok n
  | None => Ok (fallback_health data)
  end.

(** ** The four error processors, lines 465-491 *)

Definition process_fcs_errors (data : json) (threshold : Z) : result (list interface_error) :=
  process_interface_errors data threshold "fCSErrors" "fcsErrors".

Definition process_crc_errors (data : json) (threshold : Z) : result (list interface_error) :=
  process_interface_errors data threshold "cRCAlignErrors" "crcAlignErrors".

Definition process_drop_errors (data : json) (threshold : Z) : result (list interface_error) :=
  process_interface_errors data threshold "dropPkts" "dropPkts".

Definition process_output_errors (data : json) (threshold : Z) : result (list interface_error) :=
  process_interface_errors data threshold "outErrors" "outErrors".

(** ** run_health_check, lines 1031-1047: from the raw answers to the summary

    The raw values are what the fetch functions returned: a decoded body,
    or [None] ([JNull]) for a fetch that failed; drop_raw and output_raw are
    already the "imdata" lists (fetch_drop_errors, fetch_output_errors).
    process_leaf_spine works on floats and is not modelled: its result is an
    input.  [time_threshold] is the clock of process_faults, 20 hours before
    the run.  The thresholds are the defaults of lines 32-34. *)

Definition default_thresholds : thresholds :=
  {| health_threshold := 90; cpu_mem_threshold := 75; interface_threshold := 0 |}.

(** [f(raw) if raw else d] *)
Definition if_raw {A : Type} (raw : json) (f : json -> result A) (d : A) : result A :=
  if truthy raw then f raw else Ok d.

Definition run_health_check (rt : runtime) (time_threshold : datetime)
  (apic_raw faults_raw fabric_raw fcs_raw crc_raw drop_raw output_raw : json)
  (leaf_spine_nodes : list leaf_spine_node) : result summary :=
  apic_nodes <- if_raw apic_raw (process_apic_data rt) [] ;;
  faults <- if_raw faults_raw (process_faults time_threshold) [] ;;
  fabric_health <- if_raw fabric_raw process_fabric_health 0 ;;
  fcs_errors <-
    if_raw fcs_raw (fun d => process_fcs_errors d (interface_threshold default_thresholds)) [] ;;
  crc_errors <-
    if_raw crc_raw (fun d => process_crc_errors d (interface_threshold default_thresholds)) [] ;;
  drop_errors <-
    if_raw drop_raw
      (fun d => process_drop_errors (JObj [("imdata"%string, d)])
                  (interface_threshold default_thresholds)) [] ;;
  output_errors <-
    if_raw output_raw
      (fun d => process_output_errors (JObj [("imdata"%string, d)])
                  (interface_threshold default_thresholds)) [] ;;
  Ok (generate_summary default_thresholds apic_nodes leaf_spine_nodes faults fabric_health
        fcs_errors crc_errors drop_errors output_errors).

End HealthCheck.

(** * aci_client.py

    The functions after the HTTP request: what they make of the decoded
    body [r.json()]. *)

Module Client.

Import HealthCheck.

(** get_faults, get_interface_status, get_endpoints, get_urib_routes,
    get_interface_errors, get_crc_errors, get_drop_errors,
    get_output_errors (lines 25-66): [r.json().get("imdata", [])] *)
Definition imdata_of (body : json) : result json := get body "imdata" (JList []).

(** get_fabric_health, lines 20-23:
    [int(r.json()['imdata'][0]['fabricHealthTotal']['attributes']['cur'])].
    [None] stands for the exception the chain raises (KeyError, IndexError,
    TypeError or ValueError); nothing catches it. *)
Definition get_fabric_health (body : json) : option Z :=
  and_then (caught (getitem body "imdata")) (fun imdata =>
  and_then (index0 imdata) (fun first =>
  and_then (caught (getitem first "fabricHealthTotal")) (fun obj =>
  and_then (caught (getitem obj "attributes")) (fun attrs =>
  and_then (caught (getitem attrs "cur")) (fun cur =>
  caught (int cur)))))).

End Client.

(** * snapshotter.py *)

Module Snapshotter.

Import HealthCheck Client.

(** The decoded bodies of the nine requests of take_snapshot. *)
Record bodies : Type := {
  health_body : json;
  faults_body : json;
  interfaces_body : json;
  interface_errors_body : json;
  drop_errors_body : json;
  output_errors_body : json;
  crc_errors_body : json;
  endpoints_body : json;
  urib_routes_body : json
}.

(** take_snapshot, lines 19-43: the document it writes; [None] when one of
    the nine calls raises. *)
Definition take_snapshot (b : bodies) : option json :=
  and_then (get_fabric_health (health_body b)) (fun fabric_health =>
  and_then (caught (imdata_of (faults_body b))) (fun faults =>
  and_then (caught (imdata_of (interfaces_body b))) (fun interfaces =>
  and_then (caught (imdata_of (interface_errors_body b))) (fun interface_errors =>
  and_then (caught (imdata_of (drop_errors_body b))) (fun drop_errors =>
  and_then (caught (imdata_of (output_errors_body b))) (fun output_errors =>
  and_then (caught (imdata_of (crc_errors_body b))) (fun crc_errors =>
  and_then (caught (imdata_of (endpoints_body b))) (fun endpoints =>
  and_then (caught (imdata_of (urib_routes_body b))) (fun urib_routes =>
  Some (JObj [("fabric_health"%string, JInt fabric_health);
              ("faults"%string, faults);
              ("interfaces"%string, interfaces);
              ("interface_errors"%string, interface_errors);
              ("drop_errors"%string, drop_errors);
              ("output_errors"%string, output_errors);
              ("crc_errors"%string, crc_errors);
              ("endpoints"%string, endpoints);
              ("urib_routes"%string, urib_routes)])))))))))).

(** [s.endswith(suffix)] *)
Fixpoint ends_with (suffix s : string) : bool :=
  String.eqb s suffix ||
  match s with
  | EmptyString => false
  | String _ s' => ends_with suffix s'
  end.



(** list_snapshots, lines 45-58, on the listing of the folder ([None] when
    the folder does not exist): the names that end in .json, sorted. *)
Definition list_snapshots (listing : option (list string)) : list string :=
  match listing with
  | None => []
  | Some names => sort_by String.leb (filter (ends_with ".json") names)
  end.


End Snapshotter.

(** * Vocabulary of the properties *)

Module Props.

Import Comparer HealthCheck.

(** A runtime whose sets hand out exactly their elements, in some order. *)
Definition faithful (rt : runtime) : Prop :=
  forall l : list json, Permutation (set_order rt l) l.

(** Two runtimes: sets enumerated in insertion order, and backwards. *)
Definition in_order : runtime :=
  {| set_order := fun l => l; repr := fun _ => "<container>"%string |}.

Definition backwards : runtime :=
  {| set_order := @rev json; repr := fun _ => "<container>"%string |}.

(** The four counter categories of the diff and, for each, the table
    compare_snapshots builds from one document (before_errs / after_errs,
    before_crc / after_crc, before_drop / after_drop, before_output /
    after_output). *)
Inductive counter_category : Type :=
| InterfaceErrors
| CrcErrors
| DropErrors
| OutputErrors.

Definition table_of (c : counter_category) (doc : json) : result (dict Z) :=
  match c with
  | InterfaceErrors =>
      v <- get doc "interface_errors" (JList []) ;; summarize_interface_errors v
  | CrcErrors =>
      v <- get doc "crc_errors" (JList []) ;; counter_table "rmonEtherStats" "cRCAlignErrors" v
  | DropErrors =>
      v <- get doc "drop_errors" (JList []) ;; counter_table "rmonEgrCounters" "dropPkts" v
  | OutputErrors =>
      v <- get doc "output_errors" (JList []) ;; counter_table "rmonIfOut" "outErrors" v
  end.

(** The report of a category keyed by the extractor's tuple. *)
Definition port_report (c : counter_category) (r : comparison) : list (port_key * string) :=
  match c with
  | InterfaceErrors => []
  | CrcErrors => crc_error_changes r
  | DropErrors => drop_error_changes r
  | OutputErrors => output_error_changes r
  end.

(** The order [sorted()] puts strings, and numbers, in. *)
Definition json_le (x y : json) : Prop := json_leb x y = true.

(** A record wrapped the way the controller sends it:
    [{cls: {"attributes": {...}}}] *)
Definition record (cls : string) (attrs : list (string * json)) : json :=
  JObj [(cls, JObj [("attributes"%string, JObj attrs)])].

(** The collection categories of a snapshot document. *)
Definition categories : list string :=
  ["faults"; "endpoints"; "interfaces"; "interface_errors"; "crc_errors";
   "drop_errors"; "output_errors"; "urib_routes"]%string.

(** A document without the key [c]. *)
Definition without (c : string) (kv : list (string * json)) : list (string * json) :=
  filter (fun p => negb (String.eqb c (fst p))) kv.

(** The result on two documents in which nothing changed or nothing is. *)
Definition nothing : comparison :=
  {| fabric_health := (JNull, JNull);
     new_faults := []; cleared_faults := [];
     new_endpoints := []; missing_endpoints := []; moved_endpoints := [];
     interface_changes_of := {| status_changed := []; missing := []; new := [] |};
     interface_error_changes := [];
     crc_error_changes := []; drop_error_changes := []; output_error_changes := [];
     urib_route_changes := {| routes_missing := []; routes_new := [] |} |}.

(** A record that lacks its class key, or the "attributes" under it. *)
Definition lacks_class (cls : string) (r : json) : bool :=
  match r with
  | JObj kv =>
      match assoc cls kv with
      | None => true
      | Some (JObj o) =>
          match assoc "attributes" o with
          | None => true
          | Some _ => false
          end
      | Some _ => false
      end
  | _ => false
  end.

(** A record that lacks its class key, or the "attributes" under it, or the
    "dn" among them. *)
Definition lacks_dn (cls : string) (r : json) : bool :=
  match r with
  | JObj kv =>
      match assoc cls kv with
      | None => true
      | Some (JObj o) =>
          match assoc "attributes" o with
          | None => true
          | Some (JObj a) =>
              match assoc "dn" a with
              | None => true
              | Some _ => false
              end
          | Some _ => false
          end
      | Some _ => false
      end
  | _ => false
  end.

(** ** Fault filtering as the design document words it

    A fault record with its attributes, its severity and its last-transition
    timestamp (the empty string when the attribute is missing). *)
Definition fault_record (attrs : list (string * json)) (rest : list (string * json)) : json :=
  JObj (("faultInst"%string, JObj (("attributes"%string, JObj attrs) :: rest)) :: []).


(** Critical or major. *)
Definition severe (sev : string) : Prop :=
  lower sev = "critical"%string \/ lower sev = "major"%string.






(** ** Sample documents *)

Definition port_dn : string := "topology/pod-1/node-102/sys/phys-[eth1/5]/dbgEtherStats".

Definition snapshot (interfaces : list (string * string)) (errors crc : string) : json :=
  JObj [("fabric_health"%string, JInt 95);
        ("interfaces"%string,
         JList (map (fun p => record "l1PhysIf"
                               [("dn"%string, JStr (fst p)); ("operSt"%string, JStr (snd p))])
                    interfaces));
        ("interface_errors"%string,
         JList [JObj [("dn"%string, JStr port_dn); ("crc"%string, JStr errors)]]);
        ("crc_errors"%string,
         JList [record "rmonEtherStats"
                  [("dn"%string, JStr port_dn); ("cRCAlignErrors"%string, JStr crc)]])].

Definition snapshot_before : json :=
  snapshot [("topology/pod-1/node-101/sys/phys-[eth1/1]", "up");
            ("topology/pod-1/node-101/sys/phys-[eth1/2]", "up")]%string "5" "5".

Definition snapshot_after : json :=
  snapshot [("topology/pod-1/node-101/sys/phys-[eth1/1]", "down");
            ("topology/pod-1/node-101/sys/phys-[eth1/2]", "down")]%string "12" "12".

(** What compare_snapshots returns on the two samples when sets are
    enumerated in insertion order, and backwards. *)
Definition sample_report : comparison :=
  Eval vm_compute in
    match compare_snapshots in_order snapshot_before snapshot_after with
    | Ok r => r
    | Raise _ => nothing
    end.

Definition sample_report_backwards : comparison :=
  Eval vm_compute in
    match compare_snapshots backwards snapshot_before snapshot_after with
    | Ok r => r
    | Raise _ => nothing
    end.

Definition sample_table (n : Z) : dict Z := [(JStr port_dn, n)].

(** Three fault records: a stale critical one, a fresh major one, a
    critical one whose timestamp is not a timestamp. *)
Definition sample_faults : list (list (string * json) * list (string * json)) :=
  [([("severity", JStr "critical"); ("lastTransition", JStr "2024-01-14T23:59:59.000+00:00");
     ("dn", JStr "topology/pod-1/node-101/fault-F0532")]%string, []);
   ([("severity", JStr "major"); ("lastTransition", JStr "2024-01-15T08:00:00.000+00:00");
     ("dn", JStr "topology/pod-1/node-102/fault-F1385")]%string, []);
   ([("severity", JStr "critical"); ("lastTransition", JStr "yesterday");
     ("dn", JStr "topology/pod-1/node-103/fault-F0104")]%string, [])].

Definition thresholds_90 : thresholds :=
  {| health_threshold := 90; cpu_mem_threshold := 75; interface_threshold := 0 |}.

Definition healthy_leaf : leaf_spine_node :=
  {| ls_health := 100; ls_cpu := 10 # 1; ls_memory := 20 # 1 |}.

Definition window_start : datetime :=
  {| year := 2024; month := 1; day := 15; hour := 0; minute := 0; second := 0;
     microsecond := 0 |}.

(** ** Vocabulary of the further properties *)

(** A value a set or a dict accepts as a key. *)
Definition hashable (x : json) : Prop := hash_key x <> None.

(** The sets and tables compare_snapshots builds from one document:
    before_faults / after_faults, before_routes / after_routes, before_eps /
    after_eps, before_intfs / after_intfs. *)
Definition fault_set (doc : json) : result (list json) :=
  v <- get doc "faults" (JList []) ;; dn_set "faultInst" v.

Definition route_set (doc : json) : result (list json) :=
  v <- get doc "urib_routes" (JList []) ;; dn_set "uribv4Route" v.

Definition endpoints_of (doc : json) : result (dict json) :=
  v <- get doc "endpoints" (JList []) ;; endpoint_table v.

Definition interfaces_of (doc : json) : result (dict json) :=
  v <- get doc "interfaces" (JList []) ;; summarize_interfaces v.




(** An entry that summarize_interface_errors finds nothing in: a dict with
    none of the keys "dn", "crc" and "inputDiscards" at its top, as every
    record [{cls: {"attributes": {...}}}] of the controller is. *)
Definition lacks_flat_keys (e : json) : bool :=
  match e with
  | JObj kv =>
      match assoc "dn" kv, assoc "crc" kv, assoc "inputDiscards" kv with
      | None, None, None => true
      | _, _, _ => false
      end
  | _ => false
  end.

(** A snapshot document with faults, routes, endpoints and interfaces. *)
Definition site (health : Z) (faults routes : list string)
  (endpoints interfaces : list (string * string)) : json :=
  JObj [("fabric_health"%string, JInt health);
        ("faults"%string,
         JList (map (fun dn => record "faultInst" [("dn"%string, JStr dn)]) faults));
        ("interfaces"%string,
         JList (map (fun p => record "l1PhysIf"
                               [("dn"%string, JStr (fst p)); ("operSt"%string, JStr (snd p))])
                    interfaces));
        ("interface_errors"%string,
         JList [record "ethpmPhysIf" [("dn"%string, JStr port_dn)]]);
        ("endpoints"%string,
         JList (map (fun p => record "fvCEp"
                               [("dn"%string, JStr (fst p)); ("ip"%string, JStr (snd p))])
                    endpoints));
        ("urib_routes"%string,
         JList (map (fun dn => record "uribv4Route" [("dn"%string, JStr dn)]) routes))].

Definition site_before : json :=
  site 97 ["fault-A"; "fault-B"]%string ["route-1"; "route-2"]%string
       [("ep-1", "10.0.0.1"); ("ep-2", "10.0.0.2")]%string
       [("eth1/1", "up"); ("eth1/2", "up")]%string.

Definition site_after : json :=
  site 93 ["fault-B"; "fault-C"]%string ["route-2"; "route-3"]%string
       [("ep-2", "10.0.0.9"); ("ep-3", "10.0.0.3")]%string
       [("eth1/2", "down"); ("eth1/3", "up")]%string.

Definition site_report : comparison :=
  Eval vm_compute in
    match compare_snapshots in_order site_before site_after with
    | Ok r => r
    | Raise _ => nothing
    end.





Import Client Snapshotter.

(** The body of an answer of the controller: [{"imdata": [...]}] *)
Definition answer (records : list json) : json := JObj [("imdata"%string, JList records)].

(** The nine answers behind a snapshot: a fabric health score, and one port
    with its counters. *)
Definition sample_bodies (score errors : string) : bodies :=
  {| health_body := answer [record "fabricHealthTotal" [("cur"%string, JStr score)]];
     faults_body := answer [];
     interfaces_body := answer [];
     interface_errors_body :=
       answer [record "ethpmPhysIf" [("dn"%string, JStr port_dn); ("crc"%string, JStr errors)]];
     drop_errors_body :=
       answer [record "rmonEgrCounters"
                 [("dn"%string, JStr port_dn); ("dropPkts"%string, JStr errors)]];
     output_errors_body := answer [];
     crc_errors_body :=
       answer [record "rmonEtherStats"
                 [("dn"%string, JStr port_dn); ("cRCAlignErrors"%string, JStr errors)]];
     endpoints_body := answer [];
     urib_routes_body := answer [] |}.

Definition taken (b : bodies) : json :=
  match take_snapshot b with
  | Some doc => doc
  | None => JNull
  end.

Definition taken_before : json := Eval vm_compute in taken (sample_bodies "97" "5").

Definition taken_after : json := Eval vm_compute in taken (sample_bodies "93" "12").

Definition taken_report : comparison :=
  Eval vm_compute in
    match compare_snapshots in_order taken_before taken_after with
    | Ok r => r
    | Raise _ => nothing
    end.




Definition sample_fault_rows : list fault :=
  Eval vm_compute in
    match process_faults window_start
            (answer (map (fun it => fault_record (fst it) (snd it)) sample_faults)) with
    | Ok rows => rows
    | Raise _ => []
    end.

(** The summary of a run in which every fetch failed. *)
Definition nothing_fetched : summary :=
  Eval vm_compute in
    generate_summary default_thresholds [] [] [] 0 [] [] [] [].



Definition site_report_swapped : comparison :=
  Eval vm_compute in
    match compare_snapshots in_order site_after site_before with
    | Ok r => r
    | Raise _ => nothing
    end.






(** A set as the interpreter holds it: no two elements are equal. *)
Definition keyed (l : list json) : Prop :=
  forall x y, In x l -> In y l -> key_eqb x y = true -> x = y.

Definition site_report_backwards : comparison :=
  Eval vm_compute in
    match compare_snapshots backwards site_before site_after with
    | Ok r => r
    | Raise _ => nothing
    end.

End Props.

Import Comparer HealthCheck Props.

(** * Results, loops, strings *)

Lemma bind_ok {A B : Type} (c : result A) (k : A -> result B) (r : B) :
  bind c k = Ok r -> exists a, c = Ok a /\ k a = Ok r.
Proof.
  destruct c as [a|e]; simpl; intro H; [exists a; split; [reflexivity|exact H] | discriminate].
Qed.

Lemma raised_bind {A B : Type} (c : result A) (k : A -> result B) :
  raised (bind c k) = match c with Ok a => raised (k a) | Raise _ => true end.
Proof. destruct c; reflexivity. Qed.

(** Split a successful sequence of binds into its steps. *)
Ltac ok_steps H :=
  repeat match type of H with
         | bind ?c ?k = Ok ?r =>
             let a := fresh "v" in
             let Ha := fresh "Hv" in
             apply bind_ok in H; destruct H as [a [Ha H]]
         end.

Lemma for_each_app {A S : Type} (body : S -> A -> result S) (xs ys : list A) (s : S) :
  for_each body (xs ++ ys) s = bind (for_each body xs s) (for_each body ys).
Proof.
  revert s; induction xs as [|x xs IH]; intro s; simpl; [reflexivity|].
  destruct (body s x); simpl; [apply IH | reflexivity].
Qed.

(** A turn that leaves the accumulator alone can be dropped from the loop. *)
Lemma for_each_skip {A S : Type} (body : S -> A -> result S) (xs ys : list A) (x : A) (s : S) :
  (forall s', body s' x = Ok s') ->
  for_each body (xs ++ x :: ys) s = for_each body (xs ++ ys) s.
Proof.
  intro Hskip. rewrite !for_each_app.
  destruct (for_each body xs s) as [s'|e]; simpl; [rewrite Hskip; reflexivity | reflexivity].
Qed.

(** A turn that raises makes the loop raise. *)
Lemma for_each_raises {A S : Type} (body : S -> A -> result S) (xs : list A) (x : A) :
  (forall s', raised (body s' x) = true) ->
  In x xs -> forall s, raised (for_each body xs s) = true.
Proof.
  intros Hbad. induction xs as [|y xs IH]; intros Hin s; [destruct Hin|].
  simpl. rewrite raised_bind. destruct Hin as [->|Hin].
  - specialize (Hbad s). destruct (body s x); [discriminate | reflexivity].
  - destruct (body s y); [apply IH; exact Hin | reflexivity].
Qed.






(** * The model at work *)

(** [int()] on the strings a counter attribute may hold. *)
Example int_of_string_examples :
  int_of_string "12" = Ok 12 /\ int_of_string " 007 " = Ok 7 /\
  int_of_string "-3" = Ok (-3) /\ int_of_string "1_000" = Ok 1000 /\
  int_of_string "12.5" = Raise ValueError /\ int_of_string "n/a" = Raise ValueError /\
  int_of_string EmptyString = Raise ValueError.
Proof. repeat split; reflexivity. Qed.

(** The greedy [.*] of the diff's pattern goes to the last [phys-[], the lazy
    [(.*?)] stops at the first [\]] after it. *)
Example extract_examples :
  extract_interface_from_dn "topology/pod-1/node-102/sys/phys-[eth1/5]/dbgEtherStats"
  = (Some "node-102", Some "eth1/5")%string /\
  extract_interface_from_dn "node-7/phys-[eth1/1]/x/phys-[eth1/2]]"
  = (Some "node-7", Some "eth1/2")%string /\
  extract_interface_from_dn "topology/pod-1/node-102/sys/aggr-[po1]" = (None, None) /\
  locate "topology/pod-1/node-102/sys/aggr-[po1]" = ("node-102", "po1")%string.
Proof. repeat split; reflexivity. Qed.

(** [strptime] on the controller's timestamps, once cut at the first dot. *)
Example strptime_examples :
  strptime (before_first "." "2024-01-15T10:30:00.000+07:00")
  = Some {| year := 2024; month := 1; day := 15; hour := 10; minute := 30; second := 0;
            microsecond := 0 |} /\
  strptime "2024-01-15T10:30:00+07:00" = None /\
  strptime "2023-02-29T10:30:00" = None /\
  strptime "2024-02-29T23:59:60" = None /\
  strptime "yesterday" = None.
Proof. repeat split; reflexivity. Qed.

(** Of the three sample faults the stale one is dropped; the fresh one and
    the one without a readable timestamp stay. *)
Example sample_faults_kept :
  option_map (map dn)
    (match process_faults window_start
             (JObj [("imdata"%string,
                     JList (map (fun it => fault_record (fst it) (snd it)) sample_faults))]) with
     | Ok rows => Some rows
     | Raise _ => None
     end)
  = Some [JStr "topology/pod-1/node-102/fault-F1385";
          JStr "topology/pod-1/node-103/fault-F0104"].
Proof. reflexivity. Qed.

(** * The matcher *)








(** * The DN extractors *)




(** * The threshold classifier *)

Lemma pass_fail_pass (b : bool) : pass_fail b = "PASS"%string <-> b = true.
Proof. destruct b; simpl; split; intro H; try reflexivity; discriminate. Qed.

Lemma all_if_any_true {A : Type} (p : A -> bool) (xs : list A) :
  all_if_any p xs = true <-> xs <> [] /\ Forall (fun x => p x = true) xs.
Proof.
  unfold all_if_any. destruct xs as [|x xs].
  - split; [discriminate | intros [H _]; contradiction].
  - rewrite forallb_forall, Forall_forall. split.
    + intro H. split; [discriminate | exact H].
    + intros [_ H]. exact H.
Qed.

Lemma below_lt (x : Q) (t : Z) : below x t = true <-> (x < inject_Z t)%Q.
Proof.
  unfold below. rewrite negb_true_iff. split.
  - intro H. apply Qnot_le_lt. intro L. apply Qle_bool_iff in L. congruence.
  - intro H. destruct (Qle_bool (inject_Z t) x) eqn:E; [|reflexivity].
    apply Qle_bool_iff in E. apply Qlt_not_le in H. contradiction.
Qed.

Lemma Forall_equiv {A : Type} (P Q : A -> Prop) (l : list A) :
  (forall x, P x <-> Q x) -> (Forall P l <-> Forall Q l).
Proof.
  intro H. rewrite !Forall_forall. split; intros F x Hx; apply H, F, Hx.
Qed.

(** C1, counterexample.  With no controller node every entity (there is
    none) meets the threshold 90, and the sub-status is FAIL, not PASS. *)
Lemma C1_counterexample_empty_collection :
  Forall (fun n => 90 <= health n) [] /\
  apic_status (generate_summary thresholds_90 [] [healthy_leaf] [] 100 [] [] [] [])
  <> "PASS"%string.
Proof.
  split; [constructor | vm_compute; discriminate].
Qed.

(** C1, as amended.  The health sub-status of a collection (controller
    nodes, leaf/spine nodes) is PASS if and only if the collection is not
    empty and every entity in it has health >= the threshold; for an empty
    collection the sub-status is FAIL, and the overall status, the
    conjunction of all the categories, is then FAIL as well. *)
Theorem C1_health_status
  (self : thresholds) (apic_nodes : list apic_node) (leaf_spine_nodes : list leaf_spine_node)
  (faults : list fault) (fabric_health : Z)
  (fcs_errors crc_errors drop_errors output_errors : list interface_error) :
  let s := generate_summary self apic_nodes leaf_spine_nodes faults fabric_health
             fcs_errors crc_errors drop_errors output_errors in
  (apic_status s = "PASS"%string <->
     apic_nodes <> [] /\
     Forall (fun n => health_threshold self <= health n) apic_nodes) /\
  (leaf_spine_status s = "PASS"%string <->
     leaf_spine_nodes <> [] /\
     Forall (fun n => health_threshold self <= ls_health n) leaf_spine_nodes) /\
  (overall_status s = "PASS"%string <->
     apic_status s = "PASS"%string /\
     leaf_spine_status s = "PASS"%string /\
     (leaf_spine_nodes <> [] /\
      Forall (fun n => (ls_cpu n < inject_Z (cpu_mem_threshold self))%Q /\
                       (ls_memory n < inject_Z (cpu_mem_threshold self))%Q)
             leaf_spine_nodes) /\
     health_threshold self <= fabric_health /\
     faults_critical s = 0%nat /\ faults_major s = 0%nat /\
     crc_errors = [] /\ fcs_errors = [] /\ drop_errors = [] /\ output_errors = []) /\
  apic_status (generate_summary self [] leaf_spine_nodes faults fabric_health
                 fcs_errors crc_errors drop_errors output_errors) = "FAIL"%string /\
  overall_status (generate_summary self [] leaf_spine_nodes faults fabric_health
                    fcs_errors crc_errors drop_errors output_errors) = "FAIL"%string /\
  leaf_spine_status (generate_summary self apic_nodes [] faults fabric_health
                       fcs_errors crc_errors drop_errors output_errors) = "FAIL"%string /\
  overall_status (generate_summary self apic_nodes [] faults fabric_health
                    fcs_errors crc_errors drop_errors output_errors) = "FAIL"%string.
Proof.
  intro s.
  assert (Hge : forall a b, (a >=? b) = true <-> b <= a) by (intros; lia).
  split; [|split; [|split; [|split; [|split; [|split]]]]].
  - unfold s, generate_summary; cbn [apic_status].
    rewrite pass_fail_pass, all_if_any_true.
    apply and_iff_compat_l, Forall_equiv. intro n. apply Hge.
  - unfold s, generate_summary; cbn [leaf_spine_status].
    rewrite pass_fail_pass, all_if_any_true.
    apply and_iff_compat_l, Forall_equiv. intro n. apply Hge.
  - unfold s, generate_summary;
      cbn [overall_status apic_status leaf_spine_status faults_critical faults_major].
    rewrite !pass_fail_pass, !andb_true_iff, !all_if_any_true, Hge, !Nat.eqb_eq.
    rewrite <- (length_zero_iff_nil crc_errors), <- (length_zero_iff_nil fcs_errors),
      <- (length_zero_iff_nil drop_errors), <- (length_zero_iff_nil output_errors).
    assert (Hcm : Forall (fun n => below (ls_cpu n) (cpu_mem_threshold self)
                                   && below (ls_memory n) (cpu_mem_threshold self) = true)
                         leaf_spine_nodes
                  <-> Forall (fun n => (ls_cpu n < inject_Z (cpu_mem_threshold self))%Q /\
                                       (ls_memory n < inject_Z (cpu_mem_threshold self))%Q)
                             leaf_spine_nodes).
    { apply Forall_equiv. intro n. rewrite andb_true_iff, !below_lt. reflexivity. }
    rewrite Hcm. tauto.
  - reflexivity.
  - reflexivity.
  - reflexivity.
  - unfold generate_summary; cbn [overall_status all_if_any].
    rewrite andb_false_r. reflexivity.
Qed.

(** * Controller-node normalization *)


(** C7.  On the branch that reads a top-level "infraWiNode" list
    (lines 212-225) an unrecognised health token reaches [int()] outside any
    [try]: process_apic_data raises ValueError instead of giving health 0.
    The same attributes on the "imdata" branch (lines 232-262), where the
    conversion sits in a try/except, give health 0. *)
Theorem C7_unrecognized_token_raises (rt : runtime) :
  process_apic_data rt
    (JObj [("infraWiNode"%string,
            JList [JObj [("attributes"%string,
                          JObj [("health"%string, JStr "data-layer-degraded")])]])])
  = Raise ValueError /\
  option_map (map health)
    (match process_apic_data rt
             (JObj [("imdata"%string,
                     JList [record "infraWiNode"
                              [("health"%string, JStr "data-layer-degraded")]])]) with
     | Ok nodes => Some nodes
     | Raise _ => None
     end) = Some [0].
Proof.
  split; reflexivity.
Qed.

(** * Hash keys, sets and dicts *)

Lemma hkey_eqb_eq (a b : hkey) : hkey_eqb a b = true <-> a = b.
Proof.
  destruct a, b; simpl; split; intro H; try discriminate; try reflexivity.
  - apply Z.eqb_eq in H. congruence.
  - injection H as ->. apply Z.eqb_refl.
  - apply String.eqb_eq in H. congruence.
  - injection H as ->. apply String.eqb_refl.
Qed.

Lemma key_eqb_true (x y : json) :
  key_eqb x y = true <-> exists h, hash_key x = Some h /\ hash_key y = Some h.
Proof.
  unfold key_eqb. destruct (hash_key x) as [a|], (hash_key y) as [b|]; split.
  - intro H. apply hkey_eqb_eq in H. subst b. exists a. split; reflexivity.
  - intros [h [Ha Hb]]. apply hkey_eqb_eq. congruence.
  - discriminate.
  - intros [h [_ Hb]]. discriminate.
  - discriminate.
  - intros [h [Ha _]]. discriminate.
  - discriminate.
  - intros [h [Ha _]]. discriminate.
Qed.

Lemma key_eqb_sym (x y : json) : key_eqb x y = true -> key_eqb y x = true.
Proof.
  rewrite !key_eqb_true. intros [h [Hx Hy]]. exists h. split; assumption.
Qed.

Lemma key_eqb_trans (x y z : json) :
  key_eqb x y = true -> key_eqb y z = true -> key_eqb x z = true.
Proof.
  rewrite !key_eqb_true. intros [h [Hx Hy]] [h' [Hy' Hz]].
  exists h. split; [assumption | congruence].
Qed.


Lemma key_eqb_right (x y z : json) : key_eqb x y = true -> key_eqb z x = key_eqb z y.
Proof.
  intro H. destruct (key_eqb z y) eqn:E.
  - eapply key_eqb_trans; [exact E | apply key_eqb_sym; exact H].
  - destruct (key_eqb z x) eqn:E'; [|reflexivity].
    rewrite <- E. symmetry. eapply key_eqb_trans; eassumption.
Qed.

(** Only the string itself equals a string. *)
Lemma key_eqb_str (s : string) (y : json) : key_eqb (JStr s) y = true -> y = JStr s.
Proof.
  unfold key_eqb. destruct y as [|b|z|t|l|kv]; simpl; try discriminate.
  intro H. apply String.eqb_eq in H. congruence.
Qed.

Lemma key_eqb_str_refl (s : string) : key_eqb (JStr s) (JStr s) = true.
Proof. unfold key_eqb. simpl. apply String.eqb_refl. Qed.

Lemma mem_true (x : json) (l : list json) :
  mem x l = true <-> exists y, In y l /\ key_eqb x y = true.
Proof. unfold mem. apply existsb_exists. Qed.


Lemma mem_str (s : string) (l : list json) : mem (JStr s) l = true <-> In (JStr s) l.
Proof.
  rewrite mem_true. split.
  - intros [y [Hy E]]. apply key_eqb_str in E. subst y. exact Hy.
  - intro H. exists (JStr s). split; [exact H | apply key_eqb_str_refl].
Qed.





Lemma dict_get_mem {V : Type} (d : dict V) (q : json) :
  dict_get d q <> None <-> mem q (keys d) = true.
Proof.
  unfold mem, keys. induction d as [|[k v] d IH]; simpl.
  - split; [congruence | discriminate].
  - destruct (key_eqb q k); simpl; [split; [reflexivity | discriminate] | exact IH].
Qed.

Lemma dict_get_set {V : Type} (d : dict V) (k : json) (v : V) (q : json) :
  dict_get (dict_set d k v) q = if key_eqb q k then Some v else dict_get d q.
Proof.
  induction d as [|[k' v'] d IH]; simpl; [reflexivity|].
  destruct (key_eqb k k') eqn:E; simpl.
  - rewrite (key_eqb_right _ _ q E). destruct (key_eqb q k'); reflexivity.
  - rewrite IH. destruct (key_eqb q k') eqn:E'; [|reflexivity].
    destruct (key_eqb q k) eqn:E''; [|reflexivity].
    assert (C : key_eqb k k' = true)
      by (eapply key_eqb_trans; [apply key_eqb_sym; exact E'' | exact E']).
    congruence.
Qed.

Lemma keys_dict_set {V : Type} (d : dict V) (k : json) (v : V) (x : json) :
  In x (keys (dict_set d k v)) -> In x (keys d) \/ x = k.
Proof.
  unfold keys. induction d as [|[k' v'] d IH]; simpl.
  - intros [H|[]]. right. congruence.
  - destruct (key_eqb k k'); simpl.
    + intros [H|H]; [left; left; exact H | left; right; exact H].
    + intros [H|H]; [left; left; exact H|].
      destruct (IH H) as [H'|H']; [left; right; exact H' | right; exact H'].
Qed.






Lemma faithful_in (rt : runtime) (l : list json) (x : json) :
  faithful rt -> (In x (set_order rt l) <-> In x l).
Proof.
  intro F. split; apply Permutation_in; [apply F | apply Permutation_sym, F].
Qed.

Lemma in_order_faithful : faithful in_order.
Proof. intro l. apply Permutation_refl. Qed.

Lemma backwards_faithful : faithful backwards.
Proof. intro l. apply Permutation_sym, Permutation_rev. Qed.

(** * The counter diffs *)






(** What a successful comparison says about its counter sections. *)
Lemma compare_sections (rt : runtime) (before after : json) (r : comparison) :
  compare_snapshots rt before after = Ok r ->
  (exists be ae,
      table_of InterfaceErrors before = Ok be /\
      table_of InterfaceErrors after = Ok ae /\
      error_changes rt be ae = Ok (interface_error_changes r)) /\
  (forall c, c <> InterfaceErrors ->
     exists tb ta,
       table_of c before = Ok tb /\
       table_of c after = Ok ta /\
       counter_changes rt tb ta = Ok (port_report c r)).
Proof.
  unfold compare_snapshots. intro H. ok_steps H. injection H as <-.
  split.
  - eexists. eexists. unfold table_of. split; [|split].
    + repeat match goal with
             | E : ?c = Ok _ |- context [?c] => rewrite E; cbn [bind]
             end.
      reflexivity.
    + repeat match goal with
             | E : ?c = Ok _ |- context [?c] => rewrite E; cbn [bind]
             end.
      reflexivity.
    + cbn [interface_error_changes]. eassumption.
  - intros c Hc. destruct c; [contradiction Hc; reflexivity | | |];
      (eexists; eexists; unfold table_of; split; [|split];
       [ repeat match goal with
                | E : ?c = Ok _ |- context [?c] => rewrite E; cbn [bind]
                end; reflexivity
       | repeat match goal with
                | E : ?c = Ok _ |- context [?c] => rewrite E; cbn [bind]
                end; reflexivity
       | cbn [port_report crc_error_changes drop_error_changes output_error_changes];
         eassumption ]).
Qed.










(** * Ordering of the outputs *)

Lemma json_leb_total (x y : json) : json_leb x y = true \/ json_leb y x = true.
Proof.
  destruct x as [|b|z|s|l|kv], y as [|b'|z'|s'|l'|kv']; simpl;
    try (left; reflexivity); try (apply String.leb_total);
    try (destruct b); try (destruct b'); lia.
Qed.

Lemma insert_by_sorted (x : json) (l : list json) :
  Sorted json_le l -> Sorted json_le (insert_by json_leb x l).
Proof.
  induction l as [|a l IH]; simpl; intro S.
  - constructor; constructor.
  - inversion S as [|a' l' S' Hd]; subst.
    destruct (json_leb x a) eqn:E.
    + constructor; [exact S | constructor; exact E].
    + constructor; [apply IH; exact S'|].
      assert (Hax : json_le a x)
        by (destruct (json_leb_total a x) as [T|T]; [exact T | congruence]).
      destruct l as [|b l]; simpl; [constructor; exact Hax|].
      destruct (json_leb x b); constructor; [exact Hax|].
      inversion Hd; assumption.
Qed.

Lemma sort_by_sorted (l : list json) : Sorted json_le (sort_by json_leb l).
Proof.
  induction l as [|a l IH]; simpl; [constructor | apply insert_by_sorted; exact IH].
Qed.

(** What [sorted()] returns is in ascending order. *)
Lemma sorted_ascending (l l' : list json) : sorted l = Ok l' -> Sorted json_le l'.
Proof.
  unfold sorted. intro H.
  destruct (forallb (fun x => is_some (str_of x)) l).
  - injection H as <-. apply sort_by_sorted.
  - destruct (forallb (fun x => is_some (num_of x)) l).
    + injection H as <-. apply sort_by_sorted.
    + destruct (List.length l <=? 1)%nat eqn:E; [|discriminate].
      injection H as <-. destruct l as [|a [|b l]]; [constructor | | discriminate].
      constructor; constructor.
Qed.

(** X1.  The outputs compare_snapshots passes through [sorted()] are ascending,
    whatever order the sets were enumerated in. *)
Lemma sorted_outputs (rt : runtime) (before after : json) (r : comparison) :
  compare_snapshots rt before after = Ok r ->
  Sorted json_le (new_faults r) /\ Sorted json_le (cleared_faults r) /\
  Sorted json_le (new_endpoints r) /\ Sorted json_le (missing_endpoints r) /\
  Sorted json_le (moved_endpoints r) /\
  Sorted json_le (missing (interface_changes_of r)) /\
  Sorted json_le (new (interface_changes_of r)) /\
  Sorted json_le (routes_missing (urib_route_changes r)) /\
  Sorted json_le (routes_new (urib_route_changes r)).
Proof.
  unfold compare_snapshots, sorted_set. intro H. ok_steps H. injection H as <-.
  cbn. repeat split; eapply sorted_ascending; eassumption.
Qed.

(** C4.  status_changed is built by a list comprehension over the
    intersection of two key sets, without [sorted()]: its order is the
    order in which the set hands out its keys.  With the two interfaces
    eth1/1 and eth1/2 both going from up to down, an enumeration that
    yields eth1/2 first gives a status_changed list that is not ascending,
    and another enumeration of the same set gives another list. *)
Theorem C4_status_changed_unsorted :
  faithful backwards /\
  compare_snapshots backwards snapshot_before snapshot_after = Ok sample_report_backwards /\
  status_changed (interface_changes_of sample_report_backwards)
  = ["topology/pod-1/node-101/sys/phys-[eth1/2]: up ➜ down";
     "topology/pod-1/node-101/sys/phys-[eth1/1]: up ➜ down"]%string /\
  ~ Sorted (fun a b => String.leb a b = true)
      (status_changed (interface_changes_of sample_report_backwards)) /\
  faithful in_order /\
  compare_snapshots in_order snapshot_before snapshot_after = Ok sample_report /\
  status_changed (interface_changes_of sample_report)
  = ["topology/pod-1/node-101/sys/phys-[eth1/1]: up ➜ down";
     "topology/pod-1/node-101/sys/phys-[eth1/2]: up ➜ down"]%string.
Proof.
  split; [apply backwards_faithful|].
  split; [reflexivity|]. split; [reflexivity|].
  split; [|split; [apply in_order_faithful | split; reflexivity]].
  intro S. inversion S as [|a l S' Hd]; subst. inversion Hd as [|b l' L]; subst.
  vm_compute in L. discriminate.
Qed.

(** * Fault filtering *)

Lemma among_severe (sev : string) :
  among ["critical"; "major"]%string (lower sev) = true <-> severe sev.
Proof.
  unfold among, severe. simpl. rewrite !orb_true_iff, !String.eqb_eq.
  split; [intros [H|[H|H]]; [left; exact H | right; exact H | discriminate] | tauto].
Qed.







(** * Absent categories *)

Lemma assoc_without (c : string) (kv : list (string * json)) : assoc c (without c kv) = None.
Proof.
  unfold without. induction kv as [|[k v] kv IH]; simpl; [reflexivity|].
  destruct (String.eqb c k) eqn:E; simpl; [exact IH | rewrite E; exact IH].
Qed.

(** Reading a key from a document that holds an empty list for [c] and from
    the document without [c]: the same, as long as the default for [c]
    itself is the empty list. *)
Lemma get_filled (c : string) (kv : list (string * json)) (k : string) (d : json) :
  (k = c -> d = JList []) ->
  get (JObj ((c, JList []) :: without c kv)) k d = get (JObj (without c kv)) k d.
Proof.
  intro H. unfold get. cbn [assoc]. destruct (String.eqb k c) eqn:E; [|reflexivity].
  apply String.eqb_eq in E. rewrite (H E). subst k. rewrite assoc_without. reflexivity.
Qed.

Lemma faithful_nil (rt : runtime) : faithful rt -> set_order rt [] = [].
Proof. intro F. apply Permutation_nil, Permutation_sym, F. Qed.

(** C9.  A category whose key is absent from a snapshot document is treated
    as an empty collection: for each of the eight collection categories,
    on the before side as on the after side, comparing with the key absent
    gives the very result (the same report, or the same exception raised by
    some other category) as comparing with the key bound to an empty list;
    and two documents from which every category is absent compare to the
    complete, empty report. *)
Theorem C9_absent_is_empty (rt : runtime) (c : string) (kv : list (string * json))
  (other : json) :
  faithful rt ->
  In c categories ->
  compare_snapshots rt (JObj (without c kv)) other
  = compare_snapshots rt (JObj ((c, JList []) :: without c kv)) other /\
  compare_snapshots rt other (JObj (without c kv))
  = compare_snapshots rt other (JObj ((c, JList []) :: without c kv)) /\
  compare_snapshots rt (JObj []) (JObj []) = Ok nothing.
Proof.
  intros F Hc. split; [|split].
  - unfold compare_snapshots.
    simpl in Hc.
    repeat (destruct Hc as [<-|Hc]; [
      rewrite !get_filled by (intro E; first [reflexivity | discriminate E]);
      reflexivity |]).
    destruct Hc.
  - unfold compare_snapshots.
    simpl in Hc.
    repeat (destruct Hc as [<-|Hc]; [
      rewrite !get_filled by (intro E; first [reflexivity | discriminate E]);
      reflexivity |]).
    destruct Hc.
  - unfold compare_snapshots, sorted_set, status_changes, error_changes, counter_changes.
    cbn [get assoc bind dn_set endpoint_table summarize_interfaces
         summarize_interface_errors counter_table iter for_each keys map
         set_diff set_inter set_union filter app List.length Nat.ltb Nat.leb].
    rewrite (faithful_nil rt F). reflexivity.
Qed.

(** C9 on a before document that holds a health score and no faults key. *)
Lemma C9_witness :
  compare_snapshots in_order (JObj (without "faults" [("fabric_health"%string, JInt 95)]))
    snapshot_after
  = compare_snapshots in_order
      (JObj (("faults"%string, JList []) :: without "faults" [("fabric_health"%string, JInt 95)]))
      snapshot_after /\
  compare_snapshots in_order snapshot_after
    (JObj (without "faults" [("fabric_health"%string, JInt 95)]))
  = compare_snapshots in_order snapshot_after
      (JObj (("faults"%string, JList []) :: without "faults" [("fabric_health"%string, JInt 95)])) /\
  compare_snapshots in_order (JObj []) (JObj []) = Ok nothing.
Proof.
  apply (C9_absent_is_empty in_order "faults" [("fabric_health"%string, JInt 95)]
           snapshot_after in_order_faithful).
  left. reflexivity.
Defined.

(** * Records without a class key *)

(** The set comprehension of the faults and routes raises on a record that
    lacks the class key, the attributes or the dn. *)
Lemma dn_set_raises (cls : string) (records : list json) (r : json) :
  In r records -> lacks_dn cls r = true ->
  raised (dn_set cls (JList records)) = true.
Proof.
  intros Hin Hl. unfold dn_set. cbn [iter bind].
  apply for_each_raises with (x := r); [|exact Hin].
  intro acc. unfold lacks_dn in Hl.
  destruct r as [| | | | |kv]; try discriminate. cbn [getitem].
  destruct (assoc cls kv) as [[| | | | |o]|]; try discriminate; [|reflexivity].
  cbn [bind getitem].
  destruct (assoc "attributes" o) as [[| | | | |a]|]; try discriminate; [|reflexivity].
  cbn [bind getitem].
  destruct (assoc "dn" a); [discriminate | reflexivity].
Qed.

(** So does the dict comprehension of the endpoints. *)
Lemma endpoint_table_raises (records : list json) (r : json) :
  In r records -> lacks_dn "fvCEp" r = true ->
  raised (endpoint_table (JList records)) = true.
Proof.
  intros Hin Hl. unfold endpoint_table. cbn [iter bind].
  apply for_each_raises with (x := r); [|exact Hin].
  intro acc. unfold lacks_dn in Hl.
  destruct r as [| | | | |kv]; try discriminate. cbn [getitem].
  destruct (assoc "fvCEp" kv) as [[| | | | |o]|]; try discriminate; [|reflexivity].
  cbn [bind getitem].
  destruct (assoc "attributes" o) as [[| | | | |a]|]; try discriminate; [|reflexivity].
  cbn [bind getitem].
  destruct (assoc "dn" a); [discriminate | reflexivity].
Qed.

(** summarize_interfaces passes over a record that lacks the class key, the
    attributes or the dn. *)
Lemma summarize_interfaces_skips (xs ys : list json) (r : json) :
  lacks_dn "l1PhysIf" r = true ->
  summarize_interfaces (JList (xs ++ r :: ys)) = summarize_interfaces (JList (xs ++ ys)).
Proof.
  intro Hl. unfold summarize_interfaces. cbn [iter bind].
  apply for_each_skip. intro acc. unfold lacks_dn in Hl.
  destruct r as [| | | | |kv]; try discriminate. cbn [get].
  destruct (assoc "l1PhysIf" kv) as [[| | | | |o]|]; try discriminate; [|reflexivity].
  cbn [bind get].
  destruct (assoc "attributes" o) as [[| | | | |a]|]; try discriminate; [|reflexivity].
  cbn [bind get].
  destruct (assoc "dn" a); [discriminate|]. reflexivity.
Qed.

(** The counter tables pass over a record that lacks the class key or the
    attributes. *)
Lemma counter_table_skips (cls field : string) (xs ys : list json) (r : json) :
  lacks_class cls r = true ->
  counter_table cls field (JList (xs ++ r :: ys)) = counter_table cls field (JList (xs ++ ys)).
Proof.
  intro Hl. unfold counter_table. cbn [iter bind].
  apply for_each_skip. intro acc. unfold lacks_class in Hl.
  destruct r as [| | | | |kv]; try discriminate. cbn [contains getitem].
  destruct (assoc cls kv) as [[| | | | |o]|]; try discriminate; [|reflexivity].
  cbn [bind contains getitem].
  destruct (assoc "attributes" o); [discriminate | reflexivity].
Qed.

(** Go past the steps of a comparison that come before the one known to
    raise. *)
Ltac pass_steps :=
  repeat (cbn [bind raised]; try reflexivity;
          match goal with
          | Hbad : raised ?c = true |- raised (bind ?c _) = true =>
              let E := fresh "E" in
              destruct c eqn:E; [discriminate Hbad | reflexivity]
          | |- raised (bind ?c _) = true =>
              let E := fresh "E" in destruct c eqn:E
          end).

(** C10.  compare_snapshots does not guard the records of the faults,
    endpoints and urib_routes categories: when a record of one of them, in
    either document, is an object that lacks the class key (faultInst,
    fvCEp, uribv4Route), the "attributes" under it or the "dn" among them,
    the comparison raises instead of skipping the record.  The interfaces
    category skips such a record, and the three counter tables skip a record
    that lacks the class key or the attributes. *)
Theorem C10_unguarded_records (rt : runtime) (before after : json)
  (kv : list (string * json)) (category cls : string) (records xs ys : list json)
  (r : json) :
  before = JObj kv \/ after = JObj kv ->
  In (category, cls) [("faults", "faultInst"); ("endpoints", "fvCEp");
                      ("urib_routes", "uribv4Route")]%string ->
  assoc category kv = Some (JList records) ->
  In r records ->
  lacks_dn cls r = true ->
  raised (compare_snapshots rt before after) = true /\
  (lacks_dn "l1PhysIf" r = true ->
   summarize_interfaces (JList (xs ++ r :: ys)) = summarize_interfaces (JList (xs ++ ys))) /\
  (forall cls' field,
     lacks_class cls' r = true ->
     counter_table cls' field (JList (xs ++ r :: ys))
     = counter_table cls' field (JList (xs ++ ys))).
Proof.
  intros Hdoc Hcat Ha Hin Hl.
  split; [|split; [apply summarize_interfaces_skips | intros; apply counter_table_skips; assumption]].
  unfold compare_snapshots.
  destruct before as [| | | | |bkv]; try reflexivity.
  destruct after as [| | | | |akv]; try reflexivity.
  cbn [get].
  destruct Hdoc as [E|E]; injection E as ->;
    (destruct Hcat as [E|[E|[E|[]]]]; injection E as <- <-; rewrite Ha; cbv beta iota;
     [ pose proof (dn_set_raises _ _ _ Hin Hl) as Hbad
     | pose proof (endpoint_table_raises _ _ Hin Hl) as Hbad
     | pose proof (dn_set_raises _ _ _ Hin Hl) as Hbad ];
     pass_steps).
Qed.

(** C10 on a fault list whose one record has another class key. *)
Lemma C10_witness :
  raised (compare_snapshots in_order
            (JObj [("faults"%string, JList [JObj [("faultDelegate"%string, JObj [])]])])
            snapshot_after) = true /\
  (lacks_dn "l1PhysIf" (JObj [("faultDelegate"%string, JObj [])]) = true ->
   summarize_interfaces (JList ([] ++ JObj [("faultDelegate"%string, JObj [])] :: []))
   = summarize_interfaces (JList ([] ++ []))) /\
  (forall cls' field,
     lacks_class cls' (JObj [("faultDelegate"%string, JObj [])]) = true ->
     counter_table cls' field (JList ([] ++ JObj [("faultDelegate"%string, JObj [])] :: []))
     = counter_table cls' field (JList ([] ++ []))).
Proof.
  apply (C10_unguarded_records in_order
           (JObj [("faults"%string, JList [JObj [("faultDelegate"%string, JObj [])]])])
           snapshot_after
           [("faults"%string, JList [JObj [("faultDelegate"%string, JObj [])]])]
           "faults" "faultInst"
           [JObj [("faultDelegate"%string, JObj [])]] [] []
           (JObj [("faultDelegate"%string, JObj [])])).
  - left. reflexivity.
  - left. reflexivity.
  - reflexivity.
  - left. reflexivity.
  - reflexivity.
Defined.

(** * Further properties of the comparer *)

(** A property that holds at the start of a loop and that every turn keeps
    holds at its end. *)
Lemma for_each_invariant {A S : Type} (P : S -> Prop) (body : S -> A -> result S)
  (xs : list A) :
  (forall s x s', P s -> In x xs -> body s x = Ok s' -> P s') ->
  forall s r, P s -> for_each body xs s = Ok r -> P r.
Proof.
  induction xs as [|x xs IH]; intros Hstep s r Hs H; simpl in H.
  - injection H as <-. exact Hs.
  - apply bind_ok in H. destruct H as [s' [Hb H]].
    apply (IH (fun s0 y s1 P0 Hy => Hstep s0 y s1 P0 (or_intror Hy)) s' r); [|exact H].
    apply (Hstep s x s' Hs (or_introl eq_refl) Hb).
Qed.

Lemma key_eqb_refl (x : json) : hashable x -> key_eqb x x = true.
Proof.
  unfold hashable. intro H. apply key_eqb_true.
  destruct (hash_key x) as [h|]; [exists h; split; reflexivity | contradiction].
Qed.

Lemma hashed_hashable (x : json) (h : hkey) : hashed x = Ok h -> hashable x.
Proof.
  unfold hashed, hashable. destruct (hash_key x); [discriminate | discriminate].
Qed.

Lemma mem_self (x : json) (l : list json) : hashable x -> In x l -> mem x l = true.
Proof.
  intros H Hin. apply mem_true. exists x. split; [exact Hin | apply key_eqb_refl; exact H].
Qed.

Lemma in_set_add (s : list json) (x y : json) : In y (set_add s x) -> In y s \/ y = x.
Proof.
  unfold set_add. destruct (mem x s); [left; assumption|].
  rewrite in_app_iff. simpl. intros [H|[H|[]]]; [left; exact H | right; congruence].
Qed.

(** The elements of the DN sets are hashable. *)
Lemma dn_set_hashable (cls : string) (v : json) (s : list json) :
  dn_set cls v = Ok s -> Forall hashable s.
Proof.
  unfold dn_set. intro H. apply bind_ok in H. destruct H as [rs [_ H]].
  revert H. apply for_each_invariant; [|constructor].
  intros acc r acc' Hacc _ Hb. ok_steps Hb. injection Hb as <-.
  apply Forall_forall. intros y Hy. apply in_set_add in Hy. destruct Hy as [Hy| ->].
  - rewrite Forall_forall in Hacc. apply Hacc. exact Hy.
  - eapply hashed_hashable. eassumption.
Qed.

Lemma insert_by_perm {A : Type} (leb : A -> A -> bool) (x : A) (l : list A) :
  Permutation (insert_by leb x l) (x :: l).
Proof.
  induction l as [|y l IH]; simpl; [apply Permutation_refl|].
  destruct (leb x y); [apply Permutation_refl|].
  eapply Permutation_trans; [apply perm_skip, IH | apply perm_swap].
Qed.

Lemma sort_by_perm {A : Type} (leb : A -> A -> bool) (l : list A) :
  Permutation (sort_by leb l) l.
Proof.
  induction l as [|x l IH]; simpl; [constructor|].
  eapply Permutation_trans; [apply insert_by_perm | apply perm_skip, IH].
Qed.

(** [sorted()] returns the elements it was given. *)
Lemma sorted_perm (l l' : list json) : sorted l = Ok l' -> Permutation l' l.
Proof.
  unfold sorted. intro H.
  destruct (forallb (fun x => is_some (str_of x)) l).
  - injection H as <-. apply sort_by_perm.
  - destruct (forallb (fun x => is_some (num_of x)) l).
    + injection H as <-. apply sort_by_perm.
    + destruct (List.length l <=? 1)%nat; [|discriminate].
      injection H as <-. apply Permutation_refl.
Qed.

Lemma sorted_set_in (rt : runtime) (s l : list json) (x : json) :
  faithful rt -> sorted_set rt s = Ok l -> (In x l <-> In x s).
Proof.
  intros F H. unfold sorted_set in H. apply sorted_perm in H.
  rewrite <- (faithful_in rt s x F). split; apply Permutation_in;
    [exact H | apply Permutation_sym; exact H].
Qed.

Lemma in_set_diff (a b : list json) (x : json) :
  In x (set_diff a b) <-> In x a /\ mem x b = false.
Proof.
  unfold set_diff. rewrite filter_In, negb_true_iff. reflexivity.
Qed.

(** What a successful comparison says about its set and table sections. *)
Lemma compare_parts (rt : runtime) (before after : json) (r : comparison) :
  compare_snapshots rt before after = Ok r ->
  (exists bf af,
      fault_set before = Ok bf /\ fault_set after = Ok af /\
      sorted_set rt (set_diff af bf) = Ok (new_faults r) /\
      sorted_set rt (set_diff bf af) = Ok (cleared_faults r)) /\
  (exists br ar,
      route_set before = Ok br /\ route_set after = Ok ar /\
      sorted_set rt (set_diff br ar) = Ok (routes_missing (urib_route_changes r)) /\
      sorted_set rt (set_diff ar br) = Ok (routes_new (urib_route_changes r))) /\
  (exists be ae,
      endpoints_of before = Ok be /\ endpoints_of after = Ok ae /\
      sorted_set rt (set_diff (keys ae) (keys be)) = Ok (new_endpoints r) /\
      sorted_set rt (set_diff (keys be) (keys ae)) = Ok (missing_endpoints r) /\
      sorted (filter (fun dn => negb (py_eqb (value_at be dn) (value_at ae dn)))
                     (set_order rt (set_inter (keys be) (keys ae))))
      = Ok (moved_endpoints r)) /\
  (exists bi ai,
      interfaces_of before = Ok bi /\ interfaces_of after = Ok ai /\
      status_changed (interface_changes_of r) = status_changes rt bi ai /\
      sorted_set rt (set_diff (keys bi) (keys ai)) = Ok (missing (interface_changes_of r)) /\
      sorted_set rt (set_diff (keys ai) (keys bi)) = Ok (new (interface_changes_of r))) /\
  (exists hb ha,
      get before "fabric_health" JNull = Ok hb /\ get after "fabric_health" JNull = Ok ha /\
      fabric_health r = (hb, ha)).
Proof.
  unfold compare_snapshots. intro H. ok_steps H. injection H as <-.
  unfold fault_set, route_set, endpoints_of, interfaces_of.
  repeat match goal with
         | E : ?c = Ok _ |- context [?c] => rewrite E; cbn [bind]
         end.
  cbn.
  repeat match goal with
         | |- _ /\ _ => split
         | |- exists _, _ => eexists
         | |- _ = _ => first [reflexivity | eassumption]
         end.
Qed.

(** X2.  The faults and the routes are compared as sets of DNs: a DN is reported
    new exactly when the after set holds it and the before set holds none
    equal to it, cleared (missing) exactly the other way round, and no DN is
    reported both ways. *)
Theorem fault_and_route_diff (rt : runtime) (before after : json) (r : comparison) :
  faithful rt ->
  compare_snapshots rt before after = Ok r ->
  exists bf af br ar,
    fault_set before = Ok bf /\ fault_set after = Ok af /\
    route_set before = Ok br /\ route_set after = Ok ar /\
    forall x,
      (In x (new_faults r) <-> In x af /\ mem x bf = false) /\
      (In x (cleared_faults r) <-> In x bf /\ mem x af = false) /\
      ~ (In x (new_faults r) /\ In x (cleared_faults r)) /\
      (In x (routes_new (urib_route_changes r)) <-> In x ar /\ mem x br = false) /\
      (In x (routes_missing (urib_route_changes r)) <-> In x br /\ mem x ar = false) /\
      ~ (In x (routes_new (urib_route_changes r)) /\
         In x (routes_missing (urib_route_changes r))).
Proof.
  intros F H.
  destruct (compare_parts _ _ _ _ H)
    as ((bf & af & Hbf & Haf & Hn & Hc) & (br & ar & Hbr & Har & Hm & Hw) & _).
  exists bf, af, br, ar. repeat (split; [assumption|]).
  assert (Hdisj : forall (a b n c : list json) x,
             Forall hashable a ->
             (In x n <-> In x a /\ mem x b = false) ->
             (In x c <-> In x b /\ mem x a = false) ->
             ~ (In x n /\ In x c)).
  { intros a b n c x Ha Hn' Hc' [X Y]. apply Hn' in X. apply Hc' in Y.
    destruct X as [X _], Y as [_ Y].
    rewrite Forall_forall in Ha. rewrite (mem_self x a (Ha x X) X) in Y. discriminate. }
  assert (Haf' : Forall hashable af).
  { unfold fault_set in Haf. apply bind_ok in Haf. destruct Haf as [v [_ Haf]].
    eapply dn_set_hashable. exact Haf. }
  assert (Har' : Forall hashable ar).
  { unfold route_set in Har. apply bind_ok in Har. destruct Har as [v [_ Har]].
    eapply dn_set_hashable. exact Har. }
  intro x.
  pose proof (sorted_set_in rt _ _ x F Hn) as N. rewrite in_set_diff in N.
  pose proof (sorted_set_in rt _ _ x F Hc) as C. rewrite in_set_diff in C.
  pose proof (sorted_set_in rt _ _ x F Hw) as W. rewrite in_set_diff in W.
  pose proof (sorted_set_in rt _ _ x F Hm) as M. rewrite in_set_diff in M.
  split; [exact N|]. split; [exact C|]. split; [exact (Hdisj af bf _ _ x Haf' N C)|].
  split; [exact W|]. split; [exact M|]. exact (Hdisj ar br _ _ x Har' W M).
Qed.

Lemma keys_hashable_step {V : Type} (d : dict V) (k : json) (v : V) :
  Forall hashable (keys d) -> hashable k -> Forall hashable (keys (dict_set d k v)).
Proof.
  intros Hd Hk. apply Forall_forall. intros x Hx.
  apply keys_dict_set in Hx. destruct Hx as [Hx| ->]; [|exact Hk].
  rewrite Forall_forall in Hd. apply Hd. exact Hx.
Qed.

(** The keys of the endpoint table are hashable. *)
Lemma endpoint_table_hashable (v : json) (d : dict json) :
  endpoint_table v = Ok d -> Forall hashable (keys d).
Proof.
  unfold endpoint_table. intro H. apply bind_ok in H. destruct H as [rs [_ H]].
  revert H. apply (for_each_invariant (fun t : dict json => Forall hashable (keys t))); [|constructor].
  intros acc r acc' Hacc _ Hb. ok_steps Hb. injection Hb as <-.
  apply keys_hashable_step; [exact Hacc | eapply hashed_hashable; eassumption].
Qed.

(** So are the keys of the interface table. *)
Lemma summarize_interfaces_hashable (v : json) (d : dict json) :
  summarize_interfaces v = Ok d -> Forall hashable (keys d).
Proof.
  unfold summarize_interfaces. intro H. apply bind_ok in H. destruct H as [rs [_ H]].
  revert H. apply (for_each_invariant (fun t : dict json => Forall hashable (keys t))); [|constructor].
  intros acc r acc' Hacc _ Hb. ok_steps Hb.
  destruct (truthy v2 && truthy v3).
  - ok_steps Hb. injection Hb as <-.
    apply keys_hashable_step; [exact Hacc | eapply hashed_hashable; eassumption].
  - injection Hb as <-. exact Hacc.
Qed.

Lemma dict_get_none_mem {V : Type} (d : dict V) (q : json) :
  dict_get d q = None <-> mem q (keys d) = false.
Proof.
  split; intro X.
  - apply not_true_is_false. intro E.
    apply (proj2 (dict_get_mem d q)) in E. contradiction.
  - destruct (dict_get d q) as [v|] eqn:E; [|reflexivity].
    assert (Y : dict_get d q <> None) by (rewrite E; discriminate).
    apply (proj1 (dict_get_mem d q)) in Y. congruence.
Qed.

Lemma in_set_inter (a b : list json) (x : json) :
  Forall hashable a -> Forall hashable b ->
  In x (set_inter a b) -> mem x a = true /\ mem x b = true.
Proof.
  intros Ha Hb. unfold set_inter. rewrite Forall_forall in Ha, Hb.
  destruct (List.length a <? List.length b)%nat; rewrite filter_In; intros [X Y].
  - split; [apply mem_self; [apply Ha; exact X | exact X] | exact Y].
  - split; [exact Y | apply mem_self; [apply Hb; exact X | exact X]].
Qed.

Lemma in_set_inter_str (a b : list json) (s : string) :
  In (JStr s) (set_inter a b) <-> In (JStr s) a /\ In (JStr s) b.
Proof.
  unfold set_inter.
  destruct (List.length a <? List.length b)%nat; rewrite filter_In, mem_str; tauto.
Qed.

Lemma value_at_get (d : dict json) (k v : json) : dict_get d k = Some v -> value_at d k = v.
Proof. unfold value_at. intros ->. reflexivity. Qed.

Lemma mem_get {V : Type} (d : dict V) (k : json) :
  mem k (keys d) = true -> exists v, dict_get d k = Some v.
Proof.
  intro H. apply dict_get_mem in H. destruct (dict_get d k) as [v|]; [exists v; reflexivity|].
  contradiction.
Qed.

Lemma in_keys_str {V : Type} (d : dict V) (s : string) :
  In (JStr s) (keys d) <-> dict_get d (JStr s) <> None.
Proof. rewrite dict_get_mem, mem_str. reflexivity. Qed.

Lemma diff_keys {V W : Type} (rt : runtime) (a : dict V) (b : dict W) (l : list json) :
  faithful rt ->
  sorted_set rt (set_diff (keys a) (keys b)) = Ok l ->
  forall x, In x l <-> In x (keys a) /\ dict_get b x = None.
Proof.
  intros F H x. rewrite (sorted_set_in rt _ _ x F H), in_set_diff, dict_get_none_mem.
  reflexivity.
Qed.

(** X3.  The endpoints are compared as a table from DN to ip: a DN is new when
    only the after table has it, missing when only the before table has it,
    and moved when both have it with different ip values; an endpoint whose
    ip is the same on both sides (also absent on both sides) is not
    reported. *)
Theorem endpoint_diff (rt : runtime) (before after : json) (r : comparison) :
  faithful rt ->
  compare_snapshots rt before after = Ok r ->
  exists be ae,
    endpoints_of before = Ok be /\ endpoints_of after = Ok ae /\
    (forall x, In x (new_endpoints r) <-> In x (keys ae) /\ dict_get be x = None) /\
    (forall x, In x (missing_endpoints r) <-> In x (keys be) /\ dict_get ae x = None) /\
    (forall x, In x (moved_endpoints r) ->
       exists ipb ipa, dict_get be x = Some ipb /\ dict_get ae x = Some ipa /\
                       py_eqb ipb ipa = false) /\
    (forall s ipb ipa,
       dict_get be (JStr s) = Some ipb -> dict_get ae (JStr s) = Some ipa ->
       py_eqb ipb ipa = false -> In (JStr s) (moved_endpoints r)).
Proof.
  intros F H.
  destruct (compare_parts _ _ _ _ H)
    as (_ & _ & (be & ae & Hbe & Hae & Hn & Hm & Hv) & _).
  exists be, ae. split; [exact Hbe|]. split; [exact Hae|].
  assert (Kb : Forall hashable (keys be)).
  { unfold endpoints_of in Hbe. apply bind_ok in Hbe. destruct Hbe as [v [_ Hbe]].
    eapply endpoint_table_hashable. exact Hbe. }
  assert (Ka : Forall hashable (keys ae)).
  { unfold endpoints_of in Hae. apply bind_ok in Hae. destruct Hae as [v [_ Hae]].
    eapply endpoint_table_hashable. exact Hae. }
  pose proof (sorted_perm _ _ Hv) as Pv.
  split; [exact (diff_keys rt _ _ _ F Hn)|].
  split; [exact (diff_keys rt _ _ _ F Hm)|].
  split.
  - intros x X. apply (Permutation_in _ Pv), filter_In in X. destruct X as [X Y].
    apply (proj1 (faithful_in rt _ _ F)) in X.
    destruct (in_set_inter _ _ _ Kb Ka X) as [Mb Ma].
    destruct (mem_get _ _ Mb) as [ipb Gb]. destruct (mem_get _ _ Ma) as [ipa Ga].
    exists ipb, ipa. rewrite (value_at_get _ _ _ Gb), (value_at_get _ _ _ Ga) in Y.
    repeat split; [exact Gb | exact Ga | apply negb_true_iff; exact Y].
  - intros s ipb ipa Gb Ga D.
    apply (Permutation_in _ (Permutation_sym Pv)), filter_In. split.
    + apply (proj2 (faithful_in rt _ _ F)), in_set_inter_str.
      split; apply in_keys_str; congruence.
    + rewrite (value_at_get _ _ _ Gb), (value_at_get _ _ _ Ga), D. reflexivity.
Qed.

(** X4.  The interfaces are compared as a table from DN to operational state:
    missing and new are the DNs only one table has, and status_changed has
    one line "dn: before ➜ after" for every DN both tables have with
    different states, and no other line. *)
Theorem interface_diff (rt : runtime) (before after : json) (r : comparison) :
  faithful rt ->
  compare_snapshots rt before after = Ok r ->
  exists bi ai,
    interfaces_of before = Ok bi /\ interfaces_of after = Ok ai /\
    (forall x, In x (missing (interface_changes_of r)) <->
               In x (keys bi) /\ dict_get ai x = None) /\
    (forall x, In x (new (interface_changes_of r)) <->
               In x (keys ai) /\ dict_get bi x = None) /\
    (forall line, In line (status_changed (interface_changes_of r)) ->
       exists k sb sa, dict_get bi k = Some sb /\ dict_get ai k = Some sa /\
                       py_eqb sb sa = false /\
                       line = str rt k +++ ": " +++ str rt sb +++ " ➜ " +++ str rt sa) /\
    (forall s sb sa,
       dict_get bi (JStr s) = Some sb -> dict_get ai (JStr s) = Some sa ->
       py_eqb sb sa = false ->
       In (s +++ ": " +++ str rt sb +++ " ➜ " +++ str rt sa)
          (status_changed (interface_changes_of r))).
Proof.
  intros F H.
  destruct (compare_parts _ _ _ _ H)
    as (_ & _ & _ & (bi & ai & Hbi & Hai & Hs & Hm & Hn) & _).
  exists bi, ai. split; [exact Hbi|]. split; [exact Hai|].
  assert (Kb : Forall hashable (keys bi)).
  { unfold interfaces_of in Hbi. apply bind_ok in Hbi. destruct Hbi as [v [_ Hbi]].
    eapply summarize_interfaces_hashable. exact Hbi. }
  assert (Ka : Forall hashable (keys ai)).
  { unfold interfaces_of in Hai. apply bind_ok in Hai. destruct Hai as [v [_ Hai]].
    eapply summarize_interfaces_hashable. exact Hai. }
  rewrite Hs. unfold status_changes.
  split; [exact (diff_keys rt _ _ _ F Hm)|].
  split; [exact (diff_keys rt _ _ _ F Hn)|].
  split.
  - intros line X. apply in_map_iff in X. destruct X as [k [<- X]].
    apply filter_In in X. destruct X as [X Y].
    apply (proj1 (faithful_in rt _ _ F)) in X.
    destruct (in_set_inter _ _ _ Kb Ka X) as [Mb Ma].
    destruct (mem_get _ _ Mb) as [sb Gb]. destruct (mem_get _ _ Ma) as [sa Ga].
    exists k, sb, sa. rewrite (value_at_get _ _ _ Gb), (value_at_get _ _ _ Ga) in Y |- *.
    repeat split; [exact Gb | exact Ga | apply negb_true_iff; exact Y].
  - intros s sb sa Gb Ga D. apply in_map_iff. exists (JStr s). split.
    + rewrite (value_at_get _ _ _ Gb), (value_at_get _ _ _ Ga). reflexivity.
    + apply filter_In. split.
      * apply (proj2 (faithful_in rt _ _ F)), in_set_inter_str.
        split; apply in_keys_str; congruence.
      * rewrite (value_at_get _ _ _ Gb), (value_at_get _ _ _ Ga), D. reflexivity.
Qed.


Lemma fault_and_route_diff_witness :
  exists bf af br ar,
    fault_set site_before = Ok bf /\ fault_set site_after = Ok af /\
    route_set site_before = Ok br /\ route_set site_after = Ok ar /\
    forall x,
      (In x (new_faults site_report) <-> In x af /\ mem x bf = false) /\
      (In x (cleared_faults site_report) <-> In x bf /\ mem x af = false) /\
      ~ (In x (new_faults site_report) /\ In x (cleared_faults site_report)) /\
      (In x (routes_new (urib_route_changes site_report)) <-> In x ar /\ mem x br = false) /\
      (In x (routes_missing (urib_route_changes site_report)) <->
       In x br /\ mem x ar = false) /\
      ~ (In x (routes_new (urib_route_changes site_report)) /\
         In x (routes_missing (urib_route_changes site_report))).
Proof.
  exact (fault_and_route_diff in_order site_before site_after site_report
           in_order_faithful eq_refl).
Defined.

Lemma endpoint_diff_witness :
  exists be ae,
    endpoints_of site_before = Ok be /\ endpoints_of site_after = Ok ae /\
    (forall x, In x (new_endpoints site_report) <-> In x (keys ae) /\ dict_get be x = None) /\
    (forall x, In x (missing_endpoints site_report) <->
               In x (keys be) /\ dict_get ae x = None) /\
    (forall x, In x (moved_endpoints site_report) ->
       exists ipb ipa, dict_get be x = Some ipb /\ dict_get ae x = Some ipa /\
                       py_eqb ipb ipa = false) /\
    (forall s ipb ipa,
       dict_get be (JStr s) = Some ipb -> dict_get ae (JStr s) = Some ipa ->
       py_eqb ipb ipa = false -> In (JStr s) (moved_endpoints site_report)).
Proof.
  exact (endpoint_diff in_order site_before site_after site_report in_order_faithful eq_refl).
Defined.

Lemma interface_diff_witness :
  exists bi ai,
    interfaces_of site_before = Ok bi /\ interfaces_of site_after = Ok ai /\
    (forall x, In x (missing (interface_changes_of site_report)) <->
               In x (keys bi) /\ dict_get ai x = None) /\
    (forall x, In x (new (interface_changes_of site_report)) <->
               In x (keys ai) /\ dict_get bi x = None) /\
    (forall line, In line (status_changed (interface_changes_of site_report)) ->
       exists k sb sa, dict_get bi k = Some sb /\ dict_get ai k = Some sa /\
                       py_eqb sb sa = false /\
                       line = str in_order k +++ ": " +++ str in_order sb +++ " ➜ "
                              +++ str in_order sa) /\
    (forall s sb sa,
       dict_get bi (JStr s) = Some sb -> dict_get ai (JStr s) = Some sa ->
       py_eqb sb sa = false ->
       In (s +++ ": " +++ str in_order sb +++ " ➜ " +++ str in_order sa)
          (status_changed (interface_changes_of site_report))).
Proof.
  exact (interface_diff in_order site_before site_after site_report in_order_faithful eq_refl).
Defined.

Lemma sorted_outputs_witness :
  Sorted json_le (new_faults site_report) /\ Sorted json_le (cleared_faults site_report) /\
  Sorted json_le (new_endpoints site_report) /\
  Sorted json_le (missing_endpoints site_report) /\
  Sorted json_le (moved_endpoints site_report) /\
  Sorted json_le (missing (interface_changes_of site_report)) /\
  Sorted json_le (new (interface_changes_of site_report)) /\
  Sorted json_le (routes_missing (urib_route_changes site_report)) /\
  Sorted json_le (routes_new (urib_route_changes site_report)).
Proof.
  exact (sorted_outputs in_order site_before site_after site_report eq_refl).
Defined.

(** * Comparing a snapshot with itself *)





















(** * Snapshots as take_snapshot writes them *)

Import Client Snapshotter.

Lemma summarize_flat (es : list json) :
  forallb lacks_flat_keys es = true -> summarize_interface_errors (JList es) = Ok [].
Proof.
  unfold summarize_interface_errors. cbn [iter bind].
  induction es as [|e es IH]; intro H; [reflexivity|].
  cbn [forallb] in H. apply andb_true_iff in H. destruct H as [He Hes].
  cbn [for_each]. destruct e as [|b|z|s|l|kv]; try discriminate.
  cbn [lacks_flat_keys] in He.
  destruct (assoc "dn" kv) eqn:E1; [discriminate|].
  destruct (assoc "crc" kv) eqn:E2; [discriminate|].
  destruct (assoc "inputDiscards" kv) eqn:E3; [discriminate|].
  cbn [get]. rewrite E1, E2, E3. cbn [bind int truthy]. apply IH. exact Hes.
Qed.

Lemma take_snapshot_interface_errors (b : bodies) (doc v : json) :
  take_snapshot b = Some doc ->
  imdata_of (interface_errors_body b) = Ok v ->
  get doc "interface_errors" (JList []) = Ok v.
Proof.
  unfold take_snapshot. intros H Hv. rewrite Hv in H.
  destruct (get_fabric_health (health_body b)); [|discriminate].
  destruct (imdata_of (faults_body b)); [|discriminate].
  destruct (imdata_of (interfaces_body b)); [|discriminate].
  destruct (imdata_of (drop_errors_body b)); [|discriminate].
  destruct (imdata_of (output_errors_body b)); [|discriminate].
  destruct (imdata_of (crc_errors_body b)); [|discriminate].
  destruct (imdata_of (endpoints_body b)); [|discriminate].
  destruct (imdata_of (urib_routes_body b)); [|discriminate].
  cbn [and_then caught] in H. injection H as <-. reflexivity.
Qed.

(** X6.  take_snapshot stores the records of class ethpmPhysIf as the controller
    sends them, wrapped in their class, while summarize_interface_errors
    reads "dn", "crc" and "inputDiscards" at the top of each entry.  So for
    two snapshots written by take_snapshot the comparison never reports an
    interface error change, whatever the counters are. *)
Theorem taken_snapshots_report_no_interface_errors (rt : runtime) (b1 b2 : bodies)
  (before after : json) (es1 es2 : list json) (r : comparison) :
  faithful rt ->
  take_snapshot b1 = Some before ->
  take_snapshot b2 = Some after ->
  imdata_of (interface_errors_body b1) = Ok (JList es1) ->
  imdata_of (interface_errors_body b2) = Ok (JList es2) ->
  forallb lacks_flat_keys es1 = true ->
  forallb lacks_flat_keys es2 = true ->
  compare_snapshots rt before after = Ok r ->
  interface_error_changes r = [].
Proof.
  intros F T1 T2 I1 I2 L1 L2 H.
  destruct (compare_sections _ _ _ _ H) as ((te & te' & Hte & Hte' & He) & _).
  unfold table_of in Hte, Hte'.
  rewrite (take_snapshot_interface_errors _ _ _ T1 I1) in Hte.
  rewrite (take_snapshot_interface_errors _ _ _ T2 I2) in Hte'.
  cbn [bind] in Hte, Hte'.
  rewrite (summarize_flat _ L1) in Hte. rewrite (summarize_flat _ L2) in Hte'.
  injection Hte as <-. injection Hte' as <-.
  unfold error_changes in He. cbn [keys map set_union app filter] in He.
  rewrite (faithful_nil rt F) in He. cbn [for_each] in He. congruence.
Qed.

Lemma taken_snapshots_report_no_interface_errors_witness :
  interface_error_changes taken_report = [].
Proof.
  exact (taken_snapshots_report_no_interface_errors in_order
           (sample_bodies "97" "5") (sample_bodies "93" "12") taken_before taken_after
           _ _ taken_report in_order_faithful eq_refl eq_refl eq_refl eq_refl
           eq_refl eq_refl eq_refl).
Defined.

(** X7.  When a DN occurs more than once in a counter collection, the record that
    comes last decides: appending a record for a DN to the collection sets
    the table's entry for this DN to the record's counter, whatever was
    there. *)
Theorem counter_table_last_record_wins (cls field : string) (xs : list json)
  (s : string) (v : json) (n : Z) (t : dict Z) :
  field <> "dn"%string ->
  s <> EmptyString ->
  int v = Ok n ->
  counter_table cls field (JList xs) = Ok t ->
  counter_table cls field
    (JList (xs ++ [record cls [("dn"%string, JStr s); (field, v)]]))
  = Ok (dict_set t (JStr s) n) /\
  count (dict_set t (JStr s) n) (JStr s) = n.
Proof.
  intros Hf Hs Hv Ht. split.
  - unfold counter_table in *. cbn [iter bind] in *.
    rewrite for_each_app, Ht. cbn [bind for_each]. unfold record.
    destruct (String.eqb field "dn") eqn:E; [apply String.eqb_eq in E; contradiction|].
    destruct (String.eqb s EmptyString) eqn:E'; [apply String.eqb_eq in E'; contradiction|].
    repeat first [ progress cbn [contains getitem get assoc bind truthy hashed hash_key negb]
                 | rewrite String.eqb_refl | rewrite E | rewrite E' | rewrite Hv ].
    reflexivity.
  - unfold count. rewrite dict_get_set, key_eqb_str_refl. reflexivity.
Qed.

Lemma counter_table_last_record_wins_witness :
  counter_table "rmonEtherStats" "cRCAlignErrors"
    (JList ([record "rmonEtherStats"
               [("dn", JStr port_dn); ("cRCAlignErrors", JStr "5")]]
            ++ [record "rmonEtherStats"
                  [("dn", JStr port_dn); ("cRCAlignErrors", JStr "12")]]))%string
  = Ok (dict_set (sample_table 5) (JStr port_dn) 12) /\
  count (dict_set (sample_table 5) (JStr port_dn) 12) (JStr port_dn) = 12.
Proof.
  apply (counter_table_last_record_wins "rmonEtherStats" "cRCAlignErrors"
           [record "rmonEtherStats" [("dn", JStr port_dn); ("cRCAlignErrors", JStr "5")]]
           port_dn (JStr "12") 12 (sample_table 5))%string;
    [discriminate | discriminate | reflexivity | reflexivity].
Defined.


(** * Further properties of the health check *)




(** X9.  When the first record of the answer is a fabricHealthTotal record, the
    score the snapshot takes (get_fabric_health) is the score the health
    check reports (process_fabric_health). *)
Theorem fabric_health_agrees (kv rest : list (string * json)) (obj : json)
  (more : list json) (n : Z) :
  assoc "imdata" kv
  = Some (JList (JObj (("fabricHealthTotal"%string, obj) :: rest) :: more)) ->
  get_fabric_health (JObj kv) = Some n ->
  process_fabric_health (JObj kv) = Ok n.
Proof.
  intros Hkv H. unfold get_fabric_health in H. cbn [getitem] in H. rewrite Hkv in H.
  cbn [caught and_then index0 getitem assoc] in H. rewrite String.eqb_refl in H.
  cbn [caught and_then] in H.
  destruct (getitem obj "attributes") as [attrs|] eqn:Ha; [|discriminate].
  cbn [caught and_then] in H.
  destruct (getitem attrs "cur") as [cur|] eqn:Hc; [|discriminate].
  cbn [caught and_then] in H.
  destruct (int cur) as [m|] eqn:Hi; [|discriminate]. injection H as ->.
  destruct obj as [| | | | |okv]; try discriminate. cbn [getitem] in Ha.
  destruct (assoc "attributes" okv) as [a|] eqn:Eo; [|discriminate]. injection Ha as ->.
  destruct attrs as [| | | | |akv]; try discriminate. cbn [getitem] in Hc.
  destruct (assoc "cur" akv) as [c|] eqn:Ec; [|discriminate]. injection Hc as ->.
  unfold process_fabric_health.
  destruct kv as [|p kv']; [discriminate|]. cbn [truthy negb].
  cbn [contains getitem get]. rewrite Hkv. cbn [bind negb truthy iter first_total first_key].
  change (usable_key (Some "fabricHealthTotal"%string)) with (Some "fabricHealthTotal"%string).
  change (is_substring "fabricHealthTotal" "fabricHealthTotal") with true.
  cbn [getitem assoc]. rewrite String.eqb_refl. cbn [bind get]. rewrite Eo. cbn [bind].
  unfold cur_or_zero. cbn [get]. rewrite Ec. cbn [bind]. rewrite Hi. reflexivity.
Qed.

Lemma fabric_health_agrees_witness :
  process_fabric_health
    (JObj [("totalCount", JStr "1");
           ("imdata", JList [JObj [("fabricHealthTotal",
                                     JObj [("attributes", JObj [("cur", JStr "97")])])]])])%string
  = Ok 97.
Proof.
  apply (fabric_health_agrees
           [("totalCount", JStr "1");
            ("imdata", JList [JObj [("fabricHealthTotal",
                                      JObj [("attributes", JObj [("cur", JStr "97")])])]])]
           [] (JObj [("attributes", JObj [("cur", JStr "97")])]) [] 97)%string;
    reflexivity.
Defined.

Lemma overall_needs (self : thresholds) (apic_nodes : list apic_node)
  (leaf_spine_nodes : list leaf_spine_node) (faults : list fault) (fabric_health : Z)
  (fcs_errors crc_errors drop_errors output_errors : list interface_error) :
  apic_nodes = [] \/ leaf_spine_nodes = [] \/ fabric_health < health_threshold self ->
  overall_status (generate_summary self apic_nodes leaf_spine_nodes faults fabric_health
                    fcs_errors crc_errors drop_errors output_errors) = "FAIL"%string.
Proof.
  intro H. unfold generate_summary. cbn [overall_status].
  destruct H as [->|[->|H]].
  - reflexivity.
  - cbn [all_if_any]. rewrite andb_false_r. reflexivity.
  - assert (E : (fabric_health >=? health_threshold self) = false) by lia. rewrite E.
    rewrite andb_false_r. reflexivity.
Qed.

(** X10.  A run in which the controller data or the fabric health could not be
    fetched, or that found no leaf or spine node, never passes: the
    overall status is FAIL whatever the other collections hold. *)
Theorem failed_fetch_never_passes (rt : runtime) (time_threshold : datetime)
  (apic_raw faults_raw fabric_raw fcs_raw crc_raw drop_raw output_raw : json)
  (leaf_spine_nodes : list leaf_spine_node) (s : summary) :
  run_health_check rt time_threshold apic_raw faults_raw fabric_raw fcs_raw crc_raw
    drop_raw output_raw leaf_spine_nodes = Ok s ->
  truthy apic_raw = false \/ truthy fabric_raw = false \/ leaf_spine_nodes = [] ->
  overall_status s = "FAIL"%string.
Proof.
  unfold run_health_check. intros H C. ok_steps H. injection H as <-.
  apply overall_needs. destruct C as [C|[C|C]].
  - left. unfold if_raw in Hv. rewrite C in Hv. congruence.
  - right. right. unfold if_raw in Hv1. rewrite C in Hv1. injection Hv1 as <-.
    reflexivity.
  - right. left. exact C.
Qed.

Lemma failed_fetch_never_passes_witness :
  overall_status nothing_fetched = "FAIL"%string.
Proof.
  apply (failed_fetch_never_passes in_order window_start
           JNull JNull JNull JNull JNull JNull JNull [] nothing_fetched);
    [reflexivity | left; reflexivity].
Defined.






Lemma fault_of_severe (time_threshold : datetime) (f : json) (row : fault) :
  fault_of time_threshold f = Ok (Some row) ->
  among ["critical"; "major"]%string (lower (severity row)) = true.
Proof.
  unfold fault_of. intro H.
  destruct (first_key f) as [k|]; [|discriminate]. cbn [bind] in H.
  destruct (usable_key k) as [ck|]; [|discriminate].
  destruct (getitem f ck) as [obj|]; [|discriminate]. cbn [bind] in H.
  destruct (get obj "attributes" (JObj [])) as [attr|]; [|discriminate]. cbn [bind] in H.
  destruct (get attr "severity" empty) as [sev|]; [|discriminate]. cbn [bind] in H.
  destruct (as_str_method sev) as [sev_s|]; [|discriminate]. cbn [bind] in H.
  destruct (among ["critical"; "major"]%string (lower sev_s)) eqn:A; [|discriminate].
  ok_steps H. destruct v0; [discriminate|]. ok_steps H. injection H as <-. exact A.
Qed.

Lemma severe_counts (rows : list fault) :
  Forall (fun f => among ["critical"; "major"]%string (lower (severity f)) = true) rows ->
  (List.length (filter (fun f => String.eqb (lower (severity f)) "critical") rows)
   + List.length (filter (fun f => String.eqb (lower (severity f)) "major") rows))%nat
  = List.length rows.
Proof.
  induction 1 as [|f rows Hf _ IH]; [reflexivity|]. cbn [filter].
  unfold among in Hf. cbn [existsb] in Hf.
  destruct (String.eqb (lower (severity f)) "critical") eqn:C.
  - apply String.eqb_eq in C. rewrite C. cbn [String.eqb]. cbn. cbn in IH. lia.
  - destruct (String.eqb (lower (severity f)) "major") eqn:M; [|discriminate].
    cbn [List.length]. lia.
Qed.

(** X12.  Every fault process_faults keeps is critical or major, so the summary
    counts each of them once: its numbers of critical and of major faults
    add up to the number of rows of the fault table. *)
Theorem kept_faults_are_counted (time_threshold : datetime) (data : json) (rows : list fault)
  (self : thresholds) (apic_nodes : list apic_node) (leaf_spine_nodes : list leaf_spine_node)
  (fabric_health : Z) (fcs_errors crc_errors drop_errors output_errors : list interface_error) :
  process_faults time_threshold data = Ok rows ->
  let s := generate_summary self apic_nodes leaf_spine_nodes rows fabric_health
             fcs_errors crc_errors drop_errors output_errors in
  (faults_critical s + faults_major s)%nat = List.length rows /\
  Forall (fun f => severe (severity f)) rows.
Proof.
  intros H s. subst s.
  assert (S : Forall (fun f => among ["critical"; "major"]%string (lower (severity f)) = true)
                     rows).
  { unfold process_faults in H.
    destruct (negb (truthy data)); [injection H as <-; constructor|].
    destruct (contains "imdata" data) as [has|]; [|discriminate]. cbn [bind] in H.
    destruct (negb has); [injection H as <-; constructor|].
    ok_steps H. revert H.
    apply (for_each_invariant
             (Forall (fun f => among ["critical"; "major"]%string (lower (severity f)) = true)));
      [|constructor].
    intros acc f acc' Hacc _ Hb. apply bind_ok in Hb. destruct Hb as [o [Ho Hb]].
    destruct o as [row|]; injection Hb as <-; [|exact Hacc].
    apply Forall_app. split; [exact Hacc|]. constructor; [|constructor].
    eapply fault_of_severe. exact Ho. }
  split.
  - unfold generate_summary. cbn [faults_critical faults_major]. apply severe_counts, S.
  - eapply Forall_impl; [|exact S]. intros f Hf. apply among_severe. exact Hf.
Qed.

Lemma kept_faults_are_counted_witness :
  (faults_critical (generate_summary default_thresholds [] [] sample_fault_rows 0 [] [] [] [])
   + faults_major (generate_summary default_thresholds [] [] sample_fault_rows 0 [] [] [] []))%nat
  = List.length sample_fault_rows /\
  Forall (fun f => severe (severity f)) sample_fault_rows.
Proof.
  exact (kept_faults_are_counted window_start
           (answer (map (fun it => fault_record (fst it) (snd it)) sample_faults))
           sample_fault_rows default_thresholds [] [] 0 [] [] [] [] eq_refl).
Defined.




(** * The snapshot files *)

Lemma leb_total (a b : string) : String.leb a b = true \/ String.leb b a = true.
Proof.
  unfold String.leb. rewrite (String.compare_antisym a b).
  destruct (String.compare b a); cbn; tauto.
Qed.

Lemma insert_by_total_sorted {A : Type} (leb : A -> A -> bool) (x : A) (l : list A) :
  (forall a b, leb a b = true \/ leb b a = true) ->
  Sorted (fun a b => leb a b = true) l ->
  Sorted (fun a b => leb a b = true) (insert_by leb x l).
Proof.
  intro T. induction l as [|a l IH]; cbn [insert_by]; intro S.
  - constructor; constructor.
  - inversion S as [|a' l' S' Hd]; subst.
    destruct (leb x a) eqn:E.
    + constructor; [exact S | constructor; exact E].
    + constructor; [apply IH; exact S'|].
      assert (La : leb a x = true) by (destruct (T x a); congruence).
      destruct l as [|b l]; cbn [insert_by].
      * constructor. exact La.
      * destruct (leb x b); constructor; [exact La|].
        inversion Hd; assumption.
Qed.

Lemma ends_with_spec (suffix s : string) :
  ends_with suffix s = true <-> exists stem, s = stem +++ suffix.
Proof.
  induction s as [|c s IH].
  - cbn [ends_with]. rewrite orb_false_r, String.eqb_eq. split.
    + intros <-. exists EmptyString. reflexivity.
    + intros [stem H]. destruct stem; [exact H | discriminate].
  - cbn [ends_with]. rewrite orb_true_iff, String.eqb_eq, IH. split.
    + intros [->|[stem ->]]; [exists EmptyString; reflexivity|].
      exists (String c stem). reflexivity.
    + intros [stem H]. destruct stem as [|c' stem].
      * left. exact H.
      * right. exists stem. cbn in H. congruence.
Qed.

(** X14.  list_snapshots returns the names of the folder that end in ".json",
    each as often as the folder lists it, in ascending order; a folder that
    does not exist gives the empty list. *)
Theorem list_snapshots_spec (names : list string) :
  list_snapshots None = [] /\
  Sorted (fun a b => String.leb a b = true) (list_snapshots (Some names)) /\
  Permutation (list_snapshots (Some names)) (filter (ends_with ".json") names) /\
  forall f, In f (list_snapshots (Some names)) <->
            In f names /\ exists stem, f = stem +++ ".json".
Proof.
  split; [reflexivity|]. cbn [list_snapshots]. split; [|split].
  - unfold sort_by. induction (filter (ends_with ".json") names) as [|a l IH];
      cbn [fold_right]; [constructor|].
    apply insert_by_total_sorted; [exact leb_total | exact IH].
  - apply sort_by_perm.
  - intro f. rewrite <- ends_with_spec, <- filter_In. split; intro H.
    + eapply Permutation_in; [apply sort_by_perm | exact H].
    + eapply Permutation_in; [apply Permutation_sym, sort_by_perm | exact H].
Qed.



(** X16.  Comparing the two snapshots the other way round swaps the roles: the
    new faults become the cleared ones, the new endpoints, interfaces and
    routes the missing ones, and the other way round; the two fabric health
    values change places. *)
Theorem swapping_the_snapshots (rt : runtime) (before after : json) (r r' : comparison) :
  compare_snapshots rt before after = Ok r ->
  compare_snapshots rt after before = Ok r' ->
  new_faults r' = cleared_faults r /\ cleared_faults r' = new_faults r /\
  new_endpoints r' = missing_endpoints r /\ missing_endpoints r' = new_endpoints r /\
  new (interface_changes_of r') = missing (interface_changes_of r) /\
  missing (interface_changes_of r') = new (interface_changes_of r) /\
  routes_new (urib_route_changes r') = routes_missing (urib_route_changes r) /\
  routes_missing (urib_route_changes r') = routes_new (urib_route_changes r) /\
  fabric_health r' = (snd (fabric_health r), fst (fabric_health r)).
Proof.
  intros H H'.
  destruct (compare_parts _ _ _ _ H)
    as ((bf & af & Hbf & Haf & Hnf & Hcf) & (br & ar & Hbr & Har & Hrm & Hrn) &
        (be & ae & Hbe & Hae & Hne & Hme & _) &
        (bi & ai & Hbi & Hai & _ & Hmi & Hni) & (hb & ha & Hhb & Hha & Hh)).
  destruct (compare_parts _ _ _ _ H')
    as ((bf' & af' & Hbf' & Haf' & Hnf' & Hcf') & (br' & ar' & Hbr' & Har' & Hrm' & Hrn') &
        (be' & ae' & Hbe' & Hae' & Hne' & Hme' & _) &
        (bi' & ai' & Hbi' & Hai' & _ & Hmi' & Hni') & (hb' & ha' & Hhb' & Hha' & Hh')).
  assert (bf' = af) by congruence. assert (af' = bf) by congruence.
  assert (br' = ar) by congruence. assert (ar' = br) by congruence.
  assert (be' = ae) by congruence. assert (ae' = be) by congruence.
  assert (bi' = ai) by congruence. assert (ai' = bi) by congruence.
  assert (hb' = ha) by congruence. assert (ha' = hb) by congruence. subst.
  rewrite Hh, Hh'. cbn [fst snd].
  repeat split; congruence.
Qed.

Lemma swapping_the_snapshots_witness :
  new_faults site_report_swapped = cleared_faults site_report /\
  cleared_faults site_report_swapped = new_faults site_report /\
  new_endpoints site_report_swapped = missing_endpoints site_report /\
  missing_endpoints site_report_swapped = new_endpoints site_report /\
  new (interface_changes_of site_report_swapped) = missing (interface_changes_of site_report) /\
  missing (interface_changes_of site_report_swapped) = new (interface_changes_of site_report) /\
  routes_new (urib_route_changes site_report_swapped)
  = routes_missing (urib_route_changes site_report) /\
  routes_missing (urib_route_changes site_report_swapped)
  = routes_new (urib_route_changes site_report) /\
  fabric_health site_report_swapped
  = (snd (fabric_health site_report), fst (fabric_health site_report)).
Proof.
  exact (swapping_the_snapshots in_order site_before site_after site_report
           site_report_swapped eq_refl eq_refl).
Defined.

(** X17.  A fabric health answer without records: the health check takes the
    score to be 0, while get_fabric_health raises (there is no first
    record), so that no snapshot can be taken. *)
Theorem empty_health_answer (kv : list (string * json)) (b : bodies) :
  assoc "imdata" kv = Some (JList []) ->
  health_body b = JObj kv ->
  process_fabric_health (JObj kv) = Ok 0 /\
  get_fabric_health (JObj kv) = None /\
  take_snapshot b = None.
Proof.
  intros Hkv Hb.
  assert (G : get_fabric_health (JObj kv) = None).
  { unfold get_fabric_health. cbn [getitem]. rewrite Hkv. reflexivity. }
  split; [|split; [exact G|]].
  - unfold process_fabric_health. destruct kv as [|p kv']; [discriminate|].
    cbn [truthy negb contains getitem bind]. rewrite Hkv. reflexivity.
  - unfold take_snapshot. rewrite Hb, G. reflexivity.
Qed.

Lemma empty_health_answer_witness :
  process_fabric_health (answer []) = Ok 0 /\
  get_fabric_health (answer []) = None /\
  take_snapshot {| health_body := answer [];
                   faults_body := answer [];
                   interfaces_body := answer [];
                   interface_errors_body := answer [];
                   drop_errors_body := answer [];
                   output_errors_body := answer [];
                   crc_errors_body := answer [];
                   endpoints_body := answer [];
                   urib_routes_body := answer [] |} = None.
Proof.
  exact (empty_health_answer [("imdata"%string, JList [])]
           {| health_body := answer [];
              faults_body := answer [];
              interfaces_body := answer [];
              interface_errors_body := answer [];
              drop_errors_body := answer [];
              output_errors_body := answer [];
              crc_errors_body := answer [];
              endpoints_body := answer [];
              urib_routes_body := answer [] |} eq_refl eq_refl).
Defined.






(** * The sorted lists and the order of the sets *)

Lemma leb_trans (a b c : string) :
  String.leb a b = true -> String.leb b c = true -> String.leb a c = true.
Proof.
  unfold String.leb. revert b c.
  induction a as [|x a IH]; intros [|y b] [|z c]; cbn [String.compare];
    try reflexivity; try discriminate.
  unfold Ascii.compare.
  destruct (N.compare_spec (N_of_ascii x) (N_of_ascii y));
    destruct (N.compare_spec (N_of_ascii y) (N_of_ascii z));
    destruct (N.compare_spec (N_of_ascii x) (N_of_ascii z));
    try (exfalso; lia); try reflexivity; try discriminate; try (intros; reflexivity).
  - apply IH.
Qed.

Lemma sorted_head_least {A : Type} (R : A -> A -> Prop) (l : list A) (a : A) :
  (forall x y z, In x (a :: l) -> In y (a :: l) -> In z (a :: l) -> R x y -> R y z -> R x z) ->
  Sorted R (a :: l) -> Forall (R a) l.
Proof.
  revert a. induction l as [|b l IH]; intros a T S; [constructor|].
  inversion S as [|? ? S' Hd]; subst. inversion Hd as [|? ? Rab]; subst.
  constructor; [exact Rab|].
  assert (Fb : Forall (R b) l).
  { apply IH; [|exact S']. intros x y z Hx Hy Hz. apply T; right; assumption. }
  rewrite Forall_forall in Fb |- *. intros z Hz.
  apply (T a b z); [left; reflexivity | right; left; reflexivity | right; right; exact Hz
                   | exact Rab | apply Fb; exact Hz].
Qed.

Lemma sorted_unique {A : Type} (R : A -> A -> Prop) (l1 l2 : list A) :
  (forall x y z, In x l1 -> In y l1 -> In z l1 -> R x y -> R y z -> R x z) ->
  (forall x y, In x l1 -> In y l1 -> R x y -> R y x -> x = y) ->
  Sorted R l1 -> Sorted R l2 -> Permutation l1 l2 -> l1 = l2.
Proof.
  revert l2. induction l1 as [|a l1 IH]; intros l2 T An S1 S2 P.
  - apply Permutation_nil in P. congruence.
  - destruct l2 as [|b l2]; [apply Permutation_sym, Permutation_nil in P; discriminate|].
    assert (T2 : forall x y z, In x (b :: l2) -> In y (b :: l2) -> In z (b :: l2) ->
                               R x y -> R y z -> R x z).
    { intros x y z Hx Hy Hz. apply T; eapply Permutation_in;
        try (apply Permutation_sym; exact P); assumption. }
    pose proof (sorted_head_least R l1 a T S1) as F1.
    pose proof (sorted_head_least R l2 b T2 S2) as F2.
    rewrite Forall_forall in F1, F2.
    assert (Hb : In b (a :: l1)).
    { eapply Permutation_in; [apply Permutation_sym; exact P | left; reflexivity]. }
    assert (Ha : In a (b :: l2)).
    { eapply Permutation_in; [exact P | left; reflexivity]. }
    assert (E : a = b).
    { destruct Hb as [Hb|Hb]; [exact Hb|]. destruct Ha as [Ha|Ha]; [symmetry; exact Ha|].
      apply An; [left; reflexivity | right; exact Hb | apply F1; exact Hb | apply F2; exact Ha]. }
    subst b. f_equal. apply IH.
    + intros x y z Hx Hy Hz. apply T; right; assumption.
    + intros x y Hx Hy. apply An; right; assumption.
    + inversion S1; assumption.
    + inversion S2; assumption.
    + eapply Permutation_cons_inv. exact P.
Qed.

Lemma forallb_perm {A : Type} (f : A -> bool) (l1 l2 : list A) :
  Permutation l1 l2 -> forallb f l1 = forallb f l2.
Proof.
  intro P. induction P; cbn [forallb].
  - reflexivity.
  - rewrite IHP. reflexivity.
  - destruct (f x), (f y); reflexivity.
  - congruence.
Qed.

Lemma num_key (x y : json) (a : Z) :
  num_of x = Some a -> num_of y = Some a -> key_eqb x y = true.
Proof.
  unfold key_eqb. destruct x as [|b|z|s|l|kv], y as [|b'|z'|s'|l'|kv'];
    cbn [num_of hash_key hkey_eqb]; intros H1 H2; try discriminate;
    injection H1 as <-; injection H2 as H2; rewrite H2; apply Z.eqb_refl.
Qed.

Lemma sorted_canonical (l1 l2 a b : list json) :
  Permutation l1 l2 -> keyed l1 ->
  sorted l1 = Ok a -> sorted l2 = Ok b -> a = b.
Proof.
  intros P K. unfold sorted.
  rewrite <- (forallb_perm (fun x => is_some (str_of x)) l1 l2 P).
  rewrite <- (forallb_perm (fun x => is_some (num_of x)) l1 l2 P).
  rewrite <- (Permutation_length P).
  assert (Pab : Permutation (sort_by json_leb l1) (sort_by json_leb l2)).
  { eapply Permutation_trans; [apply sort_by_perm|].
    eapply Permutation_trans; [exact P | apply Permutation_sym, sort_by_perm]. }
  destruct (forallb (fun x => is_some (str_of x)) l1) eqn:Fs.
  { intros Ha Hb. injection Ha as <-. injection Hb as <-.
    rewrite forallb_forall in Fs.
    assert (Str : forall x, In x (sort_by json_leb l1) -> exists s, x = JStr s).
    { intros x Hx. apply (Permutation_in _ (sort_by_perm json_leb l1)) in Hx.
      specialize (Fs x Hx). destruct x; try discriminate. eexists; reflexivity. }
    apply (sorted_unique json_le); try apply sort_by_sorted; try exact Pab.
    - intros x y z Hx Hy Hz. destruct (Str x Hx) as [sx ->], (Str y Hy) as [sy ->],
        (Str z Hz) as [sz ->]. unfold json_le. cbn [json_leb]. apply leb_trans.
    - intros x y Hx Hy. destruct (Str x Hx) as [sx ->], (Str y Hy) as [sy ->].
      unfold json_le. cbn [json_leb]. intros H1 H2. f_equal. apply String.leb_antisym; assumption. }
  destruct (forallb (fun x => is_some (num_of x)) l1) eqn:Fn.
  { intros Ha Hb. injection Ha as <-. injection Hb as <-.
    rewrite forallb_forall in Fn.
    assert (Num : forall x, In x (sort_by json_leb l1) ->
                            In x l1 /\ exists n, num_of x = Some n /\ str_of x = None).
    { intros x Hx. apply (Permutation_in _ (sort_by_perm json_leb l1)) in Hx.
      split; [exact Hx|]. specialize (Fn x Hx).
      destruct x; try discriminate; eexists; split; reflexivity. }
    assert (Le : forall x y n m, num_of x = Some n -> num_of y = Some m ->
                                 str_of x = None -> json_le x y <-> n <= m).
    { intros x y n m Hn Hm Hs. unfold json_le, json_leb.
      destruct x; try discriminate; rewrite ?Hn, Hm; try apply Z.leb_le;
        destruct y; try discriminate; try apply Z.leb_le. }
    apply (sorted_unique json_le); try apply sort_by_sorted; try exact Pab.
    - intros x y z Hx Hy Hz.
      destruct (Num x Hx) as (_ & nx & Nx & Sx), (Num y Hy) as (_ & ny & Ny & Sy),
        (Num z Hz) as (_ & nz & Nz & Sz).
      rewrite (Le x y nx ny), (Le y z ny nz), (Le x z nx nz) by assumption. lia.
    - intros x y Hx Hy.
      destruct (Num x Hx) as (Ix & nx & Nx & Sx), (Num y Hy) as (Iy & ny & Ny & Sy).
      rewrite (Le x y nx ny), (Le y x ny nx) by assumption. intros H1 H2.
      apply K; [exact Ix | exact Iy|]. apply (num_key x y nx); [exact Nx|].
      rewrite Ny. f_equal. lia. }
  destruct (List.length l1 <=? 1)%nat eqn:L; [|discriminate].
  intros Ha Hb. injection Ha as <-. injection Hb as <-.
  apply Nat.leb_le in L. destruct l1 as [|x [|y l1]]; cbn [List.length] in L; try lia.
  - apply Permutation_nil in P. congruence.
  - apply Permutation_length_1_inv in P. congruence.
Qed.

Lemma keyed_subset (l l' : list json) : (forall x, In x l' -> In x l) -> keyed l -> keyed l'.
Proof. intros S K x y Hx Hy. apply K; apply S; assumption. Qed.

Lemma keyed_set_add (s : list json) (x : json) : keyed s -> keyed (set_add s x).
Proof.
  intro K. unfold set_add. destruct (mem x s) eqn:M; [exact K|].
  assert (N : forall y, In y s -> key_eqb x y = false).
  { intros y Hy. destruct (key_eqb x y) eqn:E; [|reflexivity].
    unfold mem in M. assert (existsb (key_eqb x) s = true)
      by (apply existsb_exists; exists y; split; assumption). congruence. }
  intros a b Ha Hb E. apply in_app_iff in Ha, Hb.
  destruct Ha as [Ha|Ha], Hb as [Hb|Hb].
  - apply K; assumption.
  - destruct Hb as [Hb|[]]. subst b. apply key_eqb_sym in E. rewrite (N a Ha) in E.
    discriminate.
  - destruct Ha as [Ha|[]]. subst a. rewrite (N b Hb) in E. discriminate.
  - destruct Ha as [Ha|[]], Hb as [Hb|[]]. congruence.
Qed.

Lemma dn_set_keyed (cls : string) (v : json) (s : list json) :
  dn_set cls v = Ok s -> keyed s.
Proof.
  unfold dn_set. intro H. apply bind_ok in H. destruct H as [rs [_ H]].
  revert H. apply (for_each_invariant keyed); [|intros x y []].
  intros acc r acc' Hacc _ Hb. ok_steps Hb. injection Hb as <-.
  apply keyed_set_add, Hacc.
Qed.

Lemma keys_dict_set_exact {V : Type} (d : dict V) (k : json) (v : V) :
  keys (dict_set d k v) = set_add (keys d) k.
Proof.
  unfold set_add, mem, keys. induction d as [|[k' v'] d IH]; [reflexivity|].
  cbn [dict_set map fst existsb]. destruct (key_eqb k k'); [reflexivity|].
  cbn [map fst orb]. rewrite IH.
  destruct (existsb (key_eqb k) (map fst d)); reflexivity.
Qed.

Lemma endpoint_table_keyed (v : json) (d : dict json) :
  endpoint_table v = Ok d -> keyed (keys d).
Proof.
  unfold endpoint_table. intro H. apply bind_ok in H. destruct H as [rs [_ H]].
  revert H. apply (for_each_invariant (fun t : dict json => keyed (keys t)));
    [|intros x y []].
  intros acc r acc' Hacc _ Hb. ok_steps Hb. injection Hb as <-.
  rewrite keys_dict_set_exact. apply keyed_set_add, Hacc.
Qed.

Lemma summarize_interfaces_keyed (v : json) (d : dict json) :
  summarize_interfaces v = Ok d -> keyed (keys d).
Proof.
  unfold summarize_interfaces. intro H. apply bind_ok in H. destruct H as [rs [_ H]].
  revert H. apply (for_each_invariant (fun t : dict json => keyed (keys t)));
    [|intros x y []].
  intros acc r acc' Hacc _ Hb. ok_steps Hb.
  destruct (truthy v2 && truthy v3); [|injection Hb as <-; exact Hacc].
  ok_steps Hb. injection Hb as <-.
  rewrite keys_dict_set_exact. apply keyed_set_add, Hacc.
Qed.

Lemma filter_perm {A : Type} (f : A -> bool) (l1 l2 : list A) :
  Permutation l1 l2 -> Permutation (filter f l1) (filter f l2).
Proof.
  intro P. induction P; cbn [filter].
  - constructor.
  - destruct (f x); [constructor|]; exact IHP.
  - destruct (f x), (f y); try apply Permutation_refl. constructor.
  - eapply Permutation_trans; eassumption.
Qed.

Lemma sorted_set_canonical (rt1 rt2 : runtime) (s a b : list json) :
  faithful rt1 -> faithful rt2 -> keyed s ->
  sorted_set rt1 s = Ok a -> sorted_set rt2 s = Ok b -> a = b.
Proof.
  intros F1 F2 K. unfold sorted_set. apply sorted_canonical.
  - eapply Permutation_trans; [apply F1 | apply Permutation_sym, F2].
  - eapply keyed_subset; [|exact K]. intros x Hx. apply (faithful_in rt1 s x F1). exact Hx.
Qed.

Lemma in_set_diff_left (a b : list json) (x : json) : In x (set_diff a b) -> In x a.
Proof. intro H. apply in_set_diff in H. apply H. Qed.

Lemma keyed_set_inter (a b : list json) : keyed a -> keyed b -> keyed (set_inter a b).
Proof.
  intros Ka Kb. unfold set_inter. destruct (List.length a <? List.length b)%nat.
  - eapply keyed_subset; [|exact Ka]. intros x Hx. apply filter_In in Hx. apply Hx.
  - eapply keyed_subset; [|exact Kb]. intros x Hx. apply filter_In in Hx. apply Hx.
Qed.

(** X19.  The lists that compare_snapshots passes through [sorted()] do not depend
    on the order in which the interpreter enumerates its sets: two runs on
    the same two snapshots give the same new and cleared faults, the same
    new, missing and moved endpoints, the same missing and new interfaces and
    the same route changes. *)
Theorem sorted_lists_ignore_set_order (rt1 rt2 : runtime) (before after : json)
  (r1 r2 : comparison) :
  faithful rt1 -> faithful rt2 ->
  compare_snapshots rt1 before after = Ok r1 ->
  compare_snapshots rt2 before after = Ok r2 ->
  fabric_health r1 = fabric_health r2 /\
  new_faults r1 = new_faults r2 /\ cleared_faults r1 = cleared_faults r2 /\
  new_endpoints r1 = new_endpoints r2 /\ missing_endpoints r1 = missing_endpoints r2 /\
  moved_endpoints r1 = moved_endpoints r2 /\
  missing (interface_changes_of r1) = missing (interface_changes_of r2) /\
  new (interface_changes_of r1) = new (interface_changes_of r2) /\
  urib_route_changes r1 = urib_route_changes r2.
Proof.
  intros F1 F2 H1 H2.
  destruct (compare_parts _ _ _ _ H1)
    as ((bf & af & Hbf & Haf & Hnf & Hcf) & (br & ar & Hbr & Har & Hrm & Hrn) &
        (be & ae & Hbe & Hae & Hne & Hme & Hve) &
        (bi & ai & Hbi & Hai & _ & Hmi & Hni) & (hb & ha & Hhb & Hha & Hh)).
  destruct (compare_parts _ _ _ _ H2)
    as ((bf' & af' & Hbf' & Haf' & Hnf' & Hcf') & (br' & ar' & Hbr' & Har' & Hrm' & Hrn') &
        (be' & ae' & Hbe' & Hae' & Hne' & Hme' & Hve') &
        (bi' & ai' & Hbi' & Hai' & _ & Hmi' & Hni') & (hb' & ha' & Hhb' & Hha' & Hh')).
  assert (bf' = bf) by congruence. assert (af' = af) by congruence.
  assert (br' = br) by congruence. assert (ar' = ar) by congruence.
  assert (be' = be) by congruence. assert (ae' = ae) by congruence.
  assert (bi' = bi) by congruence. assert (ai' = ai) by congruence.
  assert (hb' = hb) by congruence. assert (ha' = ha) by congruence. subst.
  assert (Kbf : keyed bf).
  { unfold fault_set in Hbf. apply bind_ok in Hbf. destruct Hbf as [v [_ Hbf]].
    eapply dn_set_keyed. exact Hbf. }
  assert (Kaf : keyed af).
  { unfold fault_set in Haf. apply bind_ok in Haf. destruct Haf as [v [_ Haf]].
    eapply dn_set_keyed. exact Haf. }
  assert (Kbr : keyed br).
  { unfold route_set in Hbr. apply bind_ok in Hbr. destruct Hbr as [v [_ Hbr]].
    eapply dn_set_keyed. exact Hbr. }
  assert (Kar : keyed ar).
  { unfold route_set in Har. apply bind_ok in Har. destruct Har as [v [_ Har]].
    eapply dn_set_keyed. exact Har. }
  assert (Kbe : keyed (keys be)).
  { unfold endpoints_of in Hbe. apply bind_ok in Hbe. destruct Hbe as [v [_ Hbe]].
    eapply endpoint_table_keyed. exact Hbe. }
  assert (Kae : keyed (keys ae)).
  { unfold endpoints_of in Hae. apply bind_ok in Hae. destruct Hae as [v [_ Hae]].
    eapply endpoint_table_keyed. exact Hae. }
  assert (Kbi : keyed (keys bi)).
  { unfold interfaces_of in Hbi. apply bind_ok in Hbi. destruct Hbi as [v [_ Hbi]].
    eapply summarize_interfaces_keyed. exact Hbi. }
  assert (Kai : keyed (keys ai)).
  { unfold interfaces_of in Hai. apply bind_ok in Hai. destruct Hai as [v [_ Hai]].
    eapply summarize_interfaces_keyed. exact Hai. }
  assert (D : forall a b l l', keyed a ->
                sorted_set rt1 (set_diff a b) = Ok l ->
                sorted_set rt2 (set_diff a b) = Ok l' -> l = l').
  { intros a b l l' K. apply (sorted_set_canonical rt1 rt2 _ _ _ F1 F2).
    eapply keyed_subset; [|exact K]. intro x. apply in_set_diff_left. }
  split; [congruence|].
  split; [exact (D _ _ _ _ Kaf Hnf Hnf')|]. split; [exact (D _ _ _ _ Kbf Hcf Hcf')|].
  split; [exact (D _ _ _ _ Kae Hne Hne')|]. split; [exact (D _ _ _ _ Kbe Hme Hme')|].
  split.
  { revert Hve Hve'. apply sorted_canonical.
    - apply filter_perm. eapply Permutation_trans; [apply F1 | apply Permutation_sym, F2].
    - eapply keyed_subset; [|exact (keyed_set_inter _ _ Kbe Kae)].
      intros x Hx. apply filter_In in Hx. apply (faithful_in rt1 _ _ F1), Hx. }
  split; [exact (D _ _ _ _ Kbi Hmi Hmi')|]. split; [exact (D _ _ _ _ Kai Hni Hni')|].
  pose proof (D _ _ _ _ Kbr Hrm Hrm') as E1. pose proof (D _ _ _ _ Kar Hrn Hrn') as E2.
  destruct (urib_route_changes r1), (urib_route_changes r2). cbn in E1, E2. congruence.
Qed.

Lemma sorted_lists_ignore_set_order_witness :
  fabric_health site_report = fabric_health site_report_backwards /\
  new_faults site_report = new_faults site_report_backwards /\
  cleared_faults site_report = cleared_faults site_report_backwards /\
  new_endpoints site_report = new_endpoints site_report_backwards /\
  missing_endpoints site_report = missing_endpoints site_report_backwards /\
  moved_endpoints site_report = moved_endpoints site_report_backwards /\
  missing (interface_changes_of site_report)
  = missing (interface_changes_of site_report_backwards) /\
  new (interface_changes_of site_report) = new (interface_changes_of site_report_backwards) /\
  urib_route_changes site_report = urib_route_changes site_report_backwards.
Proof.
  exact (sorted_lists_ignore_set_order in_order backwards site_before site_after
           site_report site_report_backwards in_order_faithful backwards_faithful
           eq_refl eq_refl).
Defined.
